(** * paper-digest: candidate selection and deduplication

    A shallow embedding of the selection pipeline of paper-digest
    ([config_loader.py], [arxiv_fetcher.py], [history_manager.py],
    [claude_runner.py] and [main.py]) and the properties its
    specification states of it.

    Conventions of the embedding:
    - a Python [str] is a [string], a sequence of 8-bit characters;
    - a Python exception is a value of [exn]; code that may raise returns
      a [result], and the methods of [HistoryManager], which also change
      the object, run in the monad [M] of state and exceptions;
    - a [dict] keyed by strings is a [gmap string _] (the order of its
      items plays no part in what the program computes from it);
    - the clocks ([datetime.now()], [datetime.now(timezone.utc)]) are
      explicit arguments, in microseconds;
    - the text form of timestamps belongs to the standard library and is
      an interface, [DatetimeLib]; the properties hold for every
      implementation of it, and [cpython] is an executable one on which
      the examples run;
    - what the program meets outside itself (the history file and its
      disk, the catalog, the summarization process) is data of the run.

    The first part holds the definitions, in the order of the source
    files; the second the properties, C1 to C10. *)

From Stdlib Require Import ZArith Ascii List Bool Lia.
From Stdlib Require String.
From stdpp Require Import gmap strings list fin_maps.

Local Open Scope Z_scope.

(* ===================================================================== *)
(** * Python values: exceptions and strings *)
(* ===================================================================== *)

Module Py.

(** The exception classes the program raises or catches. *)
Inductive exn : Type :=
| AttributeError
| KeyError
| ValueError
| TypeError
| OSError
| FileNotFoundError
| JSONDecodeError
| UnicodeDecodeError
| OverflowError
| TimeoutExpired
| OtherError.

Inductive result (A : Type) : Type :=
| Ok (a : A)
| Raise (e : exn).
Arguments Ok {A} a.
Arguments Raise {A} e.

Definition rbind {A B} (r : result A) (k : A -> result B) : result B :=
  match r with
  | Ok a => k a
  | Raise e => Raise e
  end.

Definition exn_eqb (a b : exn) : bool :=
  match a, b with
  | AttributeError, AttributeError | KeyError, KeyError
  | ValueError, ValueError | TypeError, TypeError | OSError, OSError
  | FileNotFoundError, FileNotFoundError
  | JSONDecodeError, JSONDecodeError
  | UnicodeDecodeError, UnicodeDecodeError
  | OverflowError, OverflowError
  | TimeoutExpired, TimeoutExpired | OtherError, OtherError => true
  | _, _ => false
  end.

(** [isinstance(e, cls)] along the class hierarchy: [FileNotFoundError]
    is an [OSError] (of which [IOError] is another name),
    [JSONDecodeError] and [UnicodeDecodeError] are [ValueError]s, neither
    of them the other. *)
Definition is_instance (e cls : exn) : bool :=
  exn_eqb e cls
  || match e, cls with
     | FileNotFoundError, OSError | JSONDecodeError, ValueError
     | UnicodeDecodeError, ValueError => true
     | _, _ => false
     end.

(** [try: r except (caught): handler] *)
Definition try_except {A} (r : result A) (caught : list exn)
    (handler : result A) : result A :=
  match r with
  | Ok a => Ok a
  | Raise e => if existsb (is_instance e) caught then handler else Raise e
  end.

(** ** Strings *)

Definition chr (n : nat) : string := String (ascii_of_nat n) EmptyString.
Definition dquote : string := chr 34.
Definition newline : string := chr 10.

(** [sub in s] *)
Fixpoint str_in (sub s : string) : bool :=
  String.prefix sub s
  || match s with
     | EmptyString => false
     | String _ s' => str_in sub s'
     end.

(** [sep.join(parts)] *)
Fixpoint join (sep : string) (parts : list string) : string :=
  match parts with
  | [] => EmptyString
  | [p] => p
  | p :: rest => p +:+ sep +:+ join sep rest
  end.

(** [s.split(sep)] for a non-empty [sep]: the scan goes left to right,
    [cur] is the piece being read and [skip] counts the characters of a
    separator that has been recognised and is still to be passed over. *)
Fixpoint split_aux (sep : string) (skip : nat) (cur : string) (s : string)
    : list string :=
  match s with
  | EmptyString => [cur]
  | String c s' =>
      match skip with
      | S k => split_aux sep k cur s'
      | O =>
          if String.prefix sep s
          then cur :: split_aux sep (String.length sep - 1) EmptyString s'
          else split_aux sep O (cur +:+ String c EmptyString) s'
      end
  end.

Definition split (sep s : string) : list string :=
  split_aux sep O EmptyString s.

(** [parts[-1]] of a list that [split] returned (never empty). *)
Definition last_item (parts : list string) : string :=
  List.last parts EmptyString.

(** [s.replace(old, new)] for a non-empty [old]: the pieces between the
    occurrences of [old], found left to right, joined by [new]. *)
Definition replace (old new s : string) : string :=
  join new (split old s).

(** [s.rsplit(c, 1)] for a one-character separator, as the pair
    [(s[:i], s[i+1:])] at the last index [i] of [c]; [None] when [c] does
    not occur (Python then returns [[s]]). *)
Fixpoint rsplit1 (c : ascii) (s : string) : option (string * string) :=
  match s with
  | EmptyString => None
  | String a s' =>
      match rsplit1 c s' with
      | Some (p, q) => Some (String a p, q)
      | None => if Ascii.eqb a c then Some (EmptyString, s') else None
      end
  end.

(** [s.rsplit(c, 1)[0]] *)
Definition rsplit1_head (c : ascii) (s : string) : string :=
  match rsplit1 c s with
  | Some (p, _) => p
  | None => s
  end.

(** Characters [str.strip()] removes (the ones below 128). *)
Definition is_space (a : ascii) : bool :=
  let n := nat_of_ascii a in
  ((9 <=? n) && (n <=? 13) || (28 <=? n) && (n <=? 32))%nat.

Fixpoint lstrip (s : string) : string :=
  match s with
  | EmptyString => EmptyString
  | String a s' => if is_space a then lstrip s' else s
  end.

Fixpoint rstrip (s : string) : string :=
  match s with
  | EmptyString => EmptyString
  | String a s' =>
      match rstrip s' with
      | EmptyString => if is_space a then EmptyString else String a EmptyString
      | t => String a t
      end
  end.

Definition strip (s : string) : string := rstrip (lstrip s).

(** Python truthiness of a string and of a list. *)
Definition truthy_str (s : string) : bool :=
  match s with EmptyString => false | _ => true end.
Definition truthy_list {A} (l : list A) : bool :=
  match l with [] => false | _ => true end.

End Py.
Export Py.

(* ===================================================================== *)
(** * arxiv_fetcher.py: Paper *)
(* ===================================================================== *)

Module Entry.
(** A feedparser entry, as far as [Paper.from_entry] reads it.  A field
    that is [None] is absent from the entry. *)
Record t : Type := mk {
  id : option string;
  title : option string;
  summary : option string;
  authors : list (option string);   (* author.get("name") per author *)
  tags : list (option string);      (* tag.get("term") per tag *)
  published : option string;
  updated : option string
}.
End Entry.

Record Paper : Type := mkPaper {
  arxiv_id : string;
  title : string;
  authors : list string;
  abstract : string;
  categories : list string;
  published : string;
  updated : string;
  arxiv_url : string;
  pdf_url : string
}.

(** [d.get(key, "")] *)
Definition get_or_empty (o : option string) : string := default EmptyString o.

(** The identifier of [Paper.from_entry]: the text after ["/abs/"], cut at
    its last ['v'] when it has one. *)
Definition normalize_id (entry_id : string) : string :=
  let arxiv_id := last_item (split "/abs/" entry_id) in
  if str_in "v" arxiv_id then rsplit1_head "v"%char arxiv_id else arxiv_id.

Definition from_entry (entry : Entry.t) : result Paper :=
  match Entry.id entry with
  | None => Raise AttributeError
  | Some entry_id =>
      Ok {| arxiv_id := normalize_id entry_id;
            title := strip (replace newline " " (get_or_empty (Entry.title entry)));
            authors := map get_or_empty (Entry.authors entry);
            abstract := strip (replace newline " " (get_or_empty (Entry.summary entry)));
            categories := map get_or_empty (Entry.tags entry);
            published := get_or_empty (Entry.published entry);
            updated := get_or_empty (Entry.updated entry);
            arxiv_url := entry_id;
            pdf_url := replace "/abs/" "/pdf/" entry_id +:+ ".pdf" |}
  end.

(* ===================================================================== *)
(** * config_loader.py: the query builder *)
(* ===================================================================== *)

Module Config.
(** The [interests] section of the configuration; [None] is a key that
    is absent (or null), for which [get] supplies the empty list. *)
Record interests : Type := mkInterests {
  categories : option (list string);
  keywords : option (list string)
}.

Record t : Type := mk {
  interests_section : option interests;
  days_recent : Z;                (* selection.days_recent *)
  max_candidates : Z;             (* selection.max_candidates *)
  history_retention_days : Z      (* advanced.history_retention_days *)
}.
End Config.

(** The two terms a keyword contributes: quoted when it has a space. *)
Definition keyword_terms (kw : string) : list string :=
  if str_in " " kw
  then ["ti:" +:+ dquote +:+ kw +:+ dquote; "abs:" +:+ dquote +:+ kw +:+ dquote]
  else ["ti:" +:+ kw; "abs:" +:+ kw].

Definition get_arxiv_query (config : Config.t) : string :=
  let interests :=
    default (Config.mkInterests None None) (Config.interests_section config) in
  let categories := default [] (Config.categories interests) in
  let keywords := default [] (Config.keywords interests) in
  let query_parts : list string := [] in
  let query_parts :=
    if truthy_list categories
    then query_parts
         ++ ["(" +:+ join " OR " (map (fun cat => "cat:" +:+ cat) categories) +:+ ")"]
    else query_parts in
  let query_parts :=
    if truthy_list keywords
    then query_parts
         ++ ["(" +:+ join " OR " (concat (map keyword_terms keywords)) +:+ ")"]
    else query_parts in
  if (1 <? length query_parts)%nat then join " AND " query_parts
  else match query_parts with
       | q :: _ => q
       | [] => "cat:cs.LG"
       end.

(** The configuration with the given interests and the defaults of
    [_apply_defaults]. *)
Definition config_of (cats kws : list string) : Config.t :=
  Config.mk (Some (Config.mkInterests (Some cats) (Some kws))) 7 50 90.

(* ===================================================================== *)
(** * datetime: timestamps, with and without a UTC offset *)
(* ===================================================================== *)

Module Datetime.

(** A [datetime] value: the wall-clock reading, which is the ordinal of
    the day (1 for 0001-01-01) times the microseconds of a day plus the
    microseconds since midnight, and, for an aware value, its offset from
    UTC in microseconds ([tzinfo]); a naive value has none. *)
Record datetime : Type := mk {
  wall : Z;
  utcoffset : option Z
}.

Definition second_us : Z := 1000000.
Definition day_us : Z := 86400 * second_us.

(** [timedelta(days=d)], in microseconds; a [timedelta] holds no more
    than 999999999 days either way. *)
Definition max_delta_days : Z := 999999999.

Definition timedelta_days (d : Z) : result Z :=
  if (- max_delta_days <=? d) && (d <=? max_delta_days)
  then Ok (d * day_us)
  else Raise OverflowError.

(** The ordinal of 9999-12-31, the last day of [MAXYEAR]. *)
Definition max_ordinal : Z := 3652059.

(** The readings from 0001-01-01T00:00:00 to 9999-12-31T23:59:59.999999. *)
Definition in_range (w : Z) : bool :=
  (day_us <=? w) && (w <? (max_ordinal + 1) * day_us).

(** [dt - td] keeps [tzinfo]; a result outside the years 1 to 9999 is
    an [OverflowError]. *)
Definition sub (dt : datetime) (td : Z) : result datetime :=
  let w := wall dt - td in
  if in_range w then Ok (mk w (utcoffset dt)) else Raise OverflowError.

(** Ordering comparisons: two naive values compare by wall clock, two
    aware values by UTC instant, and a naive with an aware value raises
    [TypeError]. *)
Definition cmp (op : Z -> Z -> bool) (a b : datetime) : result bool :=
  match utcoffset a, utcoffset b with
  | None, None => Ok (op (wall a) (wall b))
  | Some oa, Some ob => Ok (op (wall a - oa) (wall b - ob))
  | _, _ => Raise TypeError
  end.

Definition lt : datetime -> datetime -> result bool := cmp Z.ltb.
Definition ge : datetime -> datetime -> result bool := cmp Z.geb.

Definition is_naive (d : datetime) : bool :=
  match utcoffset d with None => true | Some _ => false end.

(** The UTC instant of an aware value. *)
Definition instant (d : datetime) : Z := wall d - default 0 (utcoffset d).

(** The text interface of the library: [fromisoformat] returns [None]
    where Python raises [ValueError]. *)
Class DatetimeLib : Type := {
  fromisoformat : string -> option datetime;
  isoformat : datetime -> string
}.

(** ** Calendar arithmetic (proleptic Gregorian, as in datetime.py) *)

Definition is_leap (y : Z) : bool :=
  (y mod 4 =? 0) && (negb (y mod 100 =? 0) || (y mod 400 =? 0)).

Definition days_before_year (y : Z) : Z :=
  let y := y - 1 in y * 365 + y / 4 - y / 100 + y / 400.

Definition days_in_month (y m : Z) : Z :=
  if m =? 2 then (if is_leap y then 29 else 28)
  else if (m =? 4) || (m =? 6) || (m =? 9) || (m =? 11) then 30 else 31.

Definition days_before_month (y m : Z) : Z :=
  nth (Z.to_nat m) [0; 0; 31; 59; 90; 120; 151; 181; 212; 243; 273; 304; 334] 0
  + (if (2 <? m) && is_leap y then 1 else 0).

Definition ymd2ord (y m d : Z) : Z :=
  days_before_year y + days_before_month y m + d.

Definition ord2ymd (n : Z) : Z * Z * Z :=
  let n := n - 1 in
  let n400 := n / 146097 in let n := n mod 146097 in
  let n100 := n / 36524 in let n := n mod 36524 in
  let n4 := n / 1461 in let n := n mod 1461 in
  let n1 := n / 365 in let n := n mod 365 in
  let year := n400 * 400 + 1 + n100 * 100 + n4 * 4 + n1 in
  if (n1 =? 4) || (n100 =? 4) then (year - 1, 12, 31)
  else
    let leapyear := (n1 =? 3) && (negb (n4 =? 24) || (n100 =? 3)) in
    let month := Z.shiftr (n + 50) 5 in
    let preceding :=
      days_before_month 1 month + (if (2 <? month) && leapyear then 1 else 0) in
    if n <? preceding
    then
      let month := month - 1 in
      let preceding :=
        preceding - (days_in_month 1 month
                     + (if (month =? 2) && leapyear then 1 else 0)) in
      (year, month, n - preceding + 1)
    else (year, month, n - preceding + 1).

(** ** Reading and writing the ISO text form *)

Definition digit (a : ascii) : option Z :=
  let n := Z.of_nat (nat_of_ascii a) in
  if (48 <=? n) && (n <=? 57) then Some (n - 48) else None.

(** The number written by a non-empty run of decimal digits. *)
Fixpoint number_from (acc : Z) (l : list ascii) : option Z :=
  match l with
  | [] => Some acc
  | a :: l' =>
      match digit a with
      | Some d => number_from (acc * 10 + d) l'
      | None => None
      end
  end.

Definition number (l : list ascii) : option Z :=
  match l with [] => None | _ => number_from 0 l end.

(** [HH:MM:SS] *)
Definition parse_hms (l : list ascii) : option (Z * Z * Z) :=
  match l with
  | [h1; h2; c1; m1; m2; c2; s1; s2] =>
      if Ascii.eqb c1 ":" && Ascii.eqb c2 ":"
      then h ← number [h1; h2]; m ← number [m1; m2]; s ← number [s1; s2];
           Some (h, m, s)
      else None
  | _ => None
  end.

(** [.fff] or [.ffffff], or nothing: microseconds. *)
Definition parse_fraction (l : list ascii) : option Z :=
  match l with
  | [] => Some 0
  | dot :: ds =>
      if Ascii.eqb dot "."
      then match length ds with
           | 3%nat => f ← number ds; Some (f * 1000)
           | 6%nat => number ds
           | _ => None
           end
      else None
  end.

(** [+HH:MM] or [-HH:MM], or nothing: the offset in microseconds. *)
Definition parse_offset (l : list ascii) : option (option Z) :=
  match l with
  | [] => Some None
  | [sg; h1; h2; c; m1; m2] =>
      if Ascii.eqb c ":"
      then h ← number [h1; h2]; m ← number [m1; m2];
           let off := (h * 3600 + m * 60) * second_us in
           if off <? day_us
           then if Ascii.eqb sg "+" then Some (Some off)
                else if Ascii.eqb sg "-" then Some (Some (- off))
                else None
           else None
      else None
  | _ => None
  end.

Definition is_sign (a : ascii) : bool := Ascii.eqb a "+" || Ascii.eqb a "-".

(** The part of [l] before its first sign character, and the rest. *)
Fixpoint break_at_sign (l : list ascii) : list ascii * list ascii :=
  match l with
  | [] => ([], [])
  | a :: l' =>
      if is_sign a then ([], l)
      else let (p, q) := break_at_sign l' in (a :: p, q)
  end.

(** [HH:MM:SS[.fff[fff]]][+HH:MM]: microseconds of the day and offset. *)
Definition parse_time (l : list ascii) : option (Z * option Z) :=
  let (clock, zone) := break_at_sign l in
  '(h, m, s) ← parse_hms (take 8 clock);
  us ← parse_fraction (drop 8 clock);
  off ← parse_offset zone;
  if (h <? 24) && (m <? 60) && (s <? 60)
  then Some ((h * 3600 + m * 60 + s) * second_us + us, off)
  else None.

(** [YYYY-MM-DD]: the ordinal of the day. *)
Definition parse_date (l : list ascii) : option Z :=
  match l with
  | [y1; y2; y3; y4; c1; m1; m2; c2; d1; d2] =>
      if Ascii.eqb c1 "-" && Ascii.eqb c2 "-"
      then y ← number [y1; y2; y3; y4]; m ← number [m1; m2];
           d ← number [d1; d2];
           if (1 <=? y) && (1 <=? m) && (m <=? 12)
              && (1 <=? d) && (d <=? days_in_month y m)
           then Some (ymd2ord y m d)
           else None
      else None
  | _ => None
  end.

(** An executable reading of the text forms every CPython release
    since 3.7 accepts: [YYYY-MM-DD], optionally followed by ['T'] or a
    space and [HH:MM:SS[.fff[fff]]][+HH:MM].  Any other text is refused
    here (later releases read further ISO 8601 forms). *)
Definition cpython_fromisoformat (s : string) : option datetime :=
  let l := String.list_ascii_of_string s in
  ord ← parse_date (take 10 l);
  match drop 10 l with
  | [] => Some (mk (ord * day_us) None)
  | sep :: t =>
      if Ascii.eqb sep "T" || Ascii.eqb sep " "
      then '(us, off) ← parse_time t; Some (mk (ord * day_us + us) off)
      else None
  end.

(** [width] decimal digits of [n], most significant first. *)
Fixpoint fixed_dec (width : nat) (n : Z) : string :=
  match width with
  | O => EmptyString
  | S w =>
      fixed_dec w (n / 10)
      +:+ String (ascii_of_nat (48 + Z.to_nat (n mod 10))) EmptyString
  end.

Definition print_offset (off : Z) : string :=
  let a := Z.abs off / second_us in
  (if off <? 0 then "-" else "+")
  +:+ fixed_dec 2 (a / 3600) +:+ ":" +:+ fixed_dec 2 (a / 60 mod 60)
  +:+ (if a mod 60 =? 0 then EmptyString else ":" +:+ fixed_dec 2 (a mod 60)).

Definition cpython_isoformat (d : datetime) : string :=
  let '(y, m, dd) := ord2ymd (wall d / day_us) in
  let t := wall d mod day_us in
  let s := t / second_us in
  let us := t mod second_us in
  fixed_dec 4 y +:+ "-" +:+ fixed_dec 2 m +:+ "-" +:+ fixed_dec 2 dd
  +:+ "T" +:+ fixed_dec 2 (s / 3600) +:+ ":" +:+ fixed_dec 2 (s / 60 mod 60)
  +:+ ":" +:+ fixed_dec 2 (s mod 60)
  +:+ (if us =? 0 then EmptyString else "." +:+ fixed_dec 6 us)
  +:+ match utcoffset d with
      | None => EmptyString
      | Some off => print_offset off
      end.

Definition cpython : DatetimeLib :=
  {| fromisoformat := cpython_fromisoformat;
     isoformat := cpython_isoformat |}.

(** [datetime(y, m, d, hh, mm, ss)], naive, and its UTC-aware twin. *)
Definition naive (y m d hh mm ss : Z) : datetime :=
  mk (ymd2ord y m d * day_us + (hh * 3600 + mm * 60 + ss) * second_us) None.
Definition utc (y m d hh mm ss : Z) : datetime :=
  mk (wall (naive y m d hh mm ss)) (Some 0).

End Datetime.
Export Datetime.

(* ===================================================================== *)
(** * arxiv_fetcher.py: ArxivFetcher *)
(* ===================================================================== *)

(** What [requests.get] and [raise_for_status] come back with. *)
Inductive http_response : Type :=
| RequestException
| Feed (entries : list Entry.t).

Section ArxivFetcher.
Context `{DatetimeLib}.

(** The catalog, as a function of the query and [max_results]. *)
Variable arxiv_api : string -> Z -> http_response.

(** [datetime.now(timezone.utc)] when the UTC clock reads [now]. *)
Definition now_utc (now : Z) : datetime := Datetime.mk now (Some 0).

(** [fetch]: a failed request gives no papers, an entry that
    [from_entry] cannot read is skipped. *)
Fixpoint papers_of_entries (entries : list Entry.t) (papers : list Paper)
    : list Paper :=
  match entries with
  | [] => papers
  | entry :: rest =>
      match from_entry entry with
      | Ok paper => papers_of_entries rest (papers ++ [paper])
      | Raise _ => papers_of_entries rest papers
      end
  end.

Definition fetch (query : string) (max_results : Z) : list Paper :=
  match arxiv_api query max_results with
  | RequestException => []
  | Feed entries => papers_of_entries entries []
  end.

(** The body of the loop of [filter_by_date] for one paper: the list
    [filtered] after it. *)
Definition filter_by_date_step (cutoff : datetime) (filtered : list Paper)
    (paper : Paper) : result (list Paper) :=
  try_except
    (match fromisoformat (replace "Z" "+00:00" (published paper)) with
     | None => Raise ValueError
     | Some pub_date =>
         rbind (Datetime.ge pub_date cutoff) (fun recent =>
         Ok (if recent then filtered ++ [paper] else filtered))
     end)
    [ValueError; AttributeError]
    (Ok (filtered ++ [paper])).

Fixpoint filter_by_date_loop (cutoff : datetime) (papers filtered : list Paper)
    : result (list Paper) :=
  match papers with
  | [] => Ok filtered
  | paper :: rest =>
      rbind (filter_by_date_step cutoff filtered paper)
            (filter_by_date_loop cutoff rest)
  end.

Definition filter_by_date (now : Z) (papers : list Paper) (days : Z)
    : result (list Paper) :=
  if days <=? 0 then Ok papers
  else
    rbind (timedelta_days days) (fun delta =>
    rbind (Datetime.sub (now_utc now) delta) (fun cutoff =>
    filter_by_date_loop cutoff papers [])).

(** [d.strftime('%Y%m%d')] *)
Definition strftime_Ymd (d : datetime) : string :=
  let '(y, m, dd) := ord2ymd (wall d / day_us) in
  fixed_dec 4 y +:+ fixed_dec 2 m +:+ fixed_dec 2 dd.

Definition fetch_recent (config : Config.t) (now : Z) (query : string)
    : result (list Paper) :=
  let max_candidates := Config.max_candidates config in
  let days_recent := Config.days_recent config in
  let end_date := now_utc now in
  rbind (timedelta_days days_recent) (fun delta =>
  rbind (Datetime.sub end_date delta) (fun start_date =>
  let date_query :=
    "submittedDate:[" +:+ strftime_Ymd start_date +:+ "0000 TO "
    +:+ strftime_Ymd end_date +:+ "2359]" in
  let full_query := "(" +:+ query +:+ ") AND " +:+ date_query in
  let papers := fetch full_query max_candidates in
  filter_by_date now papers days_recent)).

End ArxivFetcher.

(* ===================================================================== *)
(** * history_manager.py: HistoryManager *)
(* ===================================================================== *)

(** One value of the [papers] dictionary, as far as the program reads
    it.  [mkEntry]: a dictionary whose ["seen_at"] is a text, or is absent
    ([None]); these are the values the program writes.  [OtherValue]: any
    other value a history file can hold under an identifier, that is a
    dictionary whose ["seen_at"] is [null] or not a text, or a value that
    is no dictionary; on each of them
    [datetime.fromisoformat(info["seen_at"])] raises [TypeError]. *)
Inductive LedgerEntry : Type :=
| mkEntry (entry_title : string) (seen_at : option string)
| OtherValue.

Record Ledger : Type := mkLedger {
  papers : gmap string LedgerEntry;
  last_updated : option string
}.

Definition empty_ledger : Ledger := mkLedger ∅ None.

(** The history file as [_load] finds it: absent; present but not
    readable ([open] or [read] raises [IOError]); holding bytes that are
    not UTF-8 ([read] raises [UnicodeDecodeError]); holding text that is
    not JSON ([JSONDecodeError]); or holding the JSON text of a ledger, a
    dictionary with a dictionary under ["papers"].  JSON text of any
    other value is not among the states. *)
Inductive file_content : Type :=
| Missing
| Unreadable
| NotUtf8
| Malformed
| Json (ledger : Ledger).

(** Whether the directory can be made and the file opened for writing. *)
Inductive disk_state : Type :=
| DiskOk
| MkdirFails
| OpenFails.

Record HistoryManager : Type := mkHistory {
  history_file : file_content;
  disk : disk_state;
  writes : nat;                 (* number of completed [json.dump]s *)
  retention_days : Z;
  data : Ledger
}.

Definition set_data (f : Ledger -> Ledger) (self : HistoryManager)
    : HistoryManager :=
  mkHistory (history_file self) (disk self) (writes self)
    (retention_days self) (f (data self)).

Definition set_papers (f : gmap string LedgerEntry -> gmap string LedgerEntry)
    (l : Ledger) : Ledger :=
  mkLedger (f (papers l)) (last_updated l).

(** Methods run in a monad of state and exceptions over the object. *)
Definition M (A : Type) : Type := HistoryManager -> result A * HistoryManager.

Definition ret {A} (a : A) : M A := fun self => (Ok a, self).
Definition raise {A} (e : exn) : M A := fun self => (Raise e, self).
Definition bind {A B} (m : M A) (k : A -> M B) : M B :=
  fun self =>
    match m self with
    | (Ok a, self') => k a self'
    | (Raise e, self') => (Raise e, self')
    end.
Definition lift {A} (r : result A) : M A := fun self => (r, self).
Definition gets {A} (f : HistoryManager -> A) : M A :=
  fun self => (Ok (f self), self).
Definition modify (f : HistoryManager -> HistoryManager) : M unit :=
  fun self => (Ok tt, f self).

Notation "'let*' x ':=' m 'in' k" := (bind m (fun x => k))
  (at level 10, x name, m at level 100, k at level 200).
Notation "m >> k" := (bind m (fun _ => k))
  (at level 100, k at level 200, right associativity).

Section HistoryManager.
Context `{DatetimeLib}.

(** [datetime.now()] when the local clock reads [now]. *)
Definition now_local (now : Z) : datetime := Datetime.mk now None.

(** [open(...)] followed by [json.load(f)] *)
Definition read_json (file : file_content) : result Ledger :=
  match file with
  | Missing => Raise FileNotFoundError
  | Unreadable => Raise OSError
  | NotUtf8 => Raise UnicodeDecodeError
  | Malformed => Raise JSONDecodeError
  | Json ledger => Ok ledger
  end.

(** [self.history_file.exists()] *)
Definition exists_file (file : file_content) : bool :=
  match file with Missing => false | _ => true end.

Definition _load (file : file_content) : result Ledger :=
  if exists_file file
  then try_except (read_json file) [JSONDecodeError; OSError] (Ok empty_ledger)
  else Ok empty_ledger.

(** [HistoryManager(history_file, retention_days)] *)
Definition init (file : file_content) (d : disk_state) (retention : Z)
    : result HistoryManager :=
  rbind (_load file) (fun ledger => Ok (mkHistory file d 0 retention ledger)).

Definition _save (now : Z) : M unit :=
  fun self =>
    match disk self with
    | MkdirFails => (Raise OSError, self)
    | _ =>
        let self :=
          set_data (fun l => mkLedger (papers l)
                               (Some (isoformat (now_local now)))) self in
        match disk self with
        | OpenFails => (Raise OSError, self)
        | _ =>
            (Ok tt,
             mkHistory (Json (data self)) (disk self) (S (writes self))
               (retention_days self) (data self))
        end
    end.

Definition is_seen (self : HistoryManager) (arxiv_id : string) : bool :=
  bool_decide (is_Some (papers (data self) !! arxiv_id)).

Definition mark_seen (now : Z) (arxiv_id title : string) : M unit :=
  modify (set_data (set_papers
    <[arxiv_id := mkEntry title (Some (isoformat (now_local now)))]>)) >>
  _save now.

(** The dictionaries handed to [mark_multiple_seen]: the values under
    ["arxiv_id"] and ["title"], [None] for a missing key. *)
Definition mark_request : Type := option string * option string.

Fixpoint mark_each (now_text : string) (requests : list mark_request)
    (m : gmap string LedgerEntry) : gmap string LedgerEntry :=
  match requests with
  | [] => m
  | (id, t) :: rest =>
      let arxiv_id := get_or_empty id in
      let title := get_or_empty t in
      mark_each now_text rest
        (if truthy_str arxiv_id
         then <[arxiv_id := mkEntry title (Some now_text)]> m
         else m)
  end.

Definition mark_multiple_seen (now : Z) (requests : list mark_request)
    : M unit :=
  let now_text := isoformat (now_local now) in
  modify (set_data (set_papers (mark_each now_text requests))) >>
  _save now.

Definition filter_unseen (self : HistoryManager) (papers : list Paper)
    : list Paper :=
  List.filter (fun p => negb (is_seen self (arxiv_id p))) papers.

(** The body of the first loop of [cleanup_old_entries] for one item. *)
Definition cleanup_step (cutoff : datetime) (to_remove : list string)
    (item : string * LedgerEntry) : result (list string) :=
  let '(arxiv_id, info) := item in
  try_except
    (match info with
     | OtherValue => Raise TypeError
     | mkEntry _ None => Raise KeyError
     | mkEntry _ (Some text) =>
         match fromisoformat text with
         | None => Raise ValueError
         | Some seen =>
             rbind (Datetime.lt seen cutoff) (fun old =>
             Ok (if old then to_remove ++ [arxiv_id] else to_remove))
         end
     end)
    [KeyError; ValueError]
    (Ok to_remove).

Fixpoint cleanup_scan (cutoff : datetime) (items : list (string * LedgerEntry))
    (to_remove : list string) : result (list string) :=
  match items with
  | [] => Ok to_remove
  | item :: rest =>
      rbind (cleanup_step cutoff to_remove item) (cleanup_scan cutoff rest)
  end.

Definition delete_all (ids : list string) (m : gmap string LedgerEntry)
    : gmap string LedgerEntry :=
  fold_left (fun m arxiv_id => delete arxiv_id m) ids m.

Definition cleanup_old_entries (now : Z) : M Z :=
  let* retention := gets retention_days in
  if retention <=? 0 then ret 0
  else
    let* delta := lift (timedelta_days retention) in
    let* cutoff := lift (Datetime.sub (now_local now) delta) in
    let* papers := gets (fun self => papers (data self)) in
    let* to_remove := lift (cleanup_scan cutoff (map_to_list papers) []) in
    modify (set_data (set_papers (delete_all to_remove))) >>
    (if truthy_list to_remove then _save now else ret tt) >>
    ret (Z.of_nat (length to_remove)).

End HistoryManager.

(* ===================================================================== *)
(** * claude_runner.py: ClaudeRunner *)
(* ===================================================================== *)

(** How [subprocess.run] ends. *)
Inductive process_outcome : Type :=
| Exited (returncode : Z)
| ProcessTimeout            (* subprocess.TimeoutExpired *)
| CliNotFound               (* FileNotFoundError *)
| ProcessError.             (* any other exception *)

(** What a runner meets outside the program. *)
Record ClaudeRunner : Type := mkRunner {
  candidates_saved : result unit;   (* writing candidates.json *)
  prompt_built : result unit;       (* reading the template, writing prompt.md *)
  process : process_outcome;
  extracted_ids : list string       (* what [_extract_selected_ids] finds *)
}.

Definition save_candidates (self : ClaudeRunner) (papers : list Paper)
    : result unit :=
  candidates_saved self.

Definition run_subprocess (self : ClaudeRunner) : result Z :=
  match process self with
  | Exited returncode => Ok returncode
  | ProcessTimeout => Raise TimeoutExpired
  | CliNotFound => Raise FileNotFoundError
  | ProcessError => Raise OtherError
  end.

Definition run (self : ClaudeRunner) : result (bool * list string) :=
  rbind (prompt_built self) (fun _ =>
  match run_subprocess self with
  | Ok returncode =>
      if negb (returncode =? 0) then Ok (false, [])
      else Ok (true, extracted_ids self)
  | Raise _ => Ok (false, [])
  end).

(* ===================================================================== *)
(** * main.py *)
(* ===================================================================== *)

(** Everything a run of [main] meets outside the program. *)
Record Environment : Type := mkEnv {
  load_config : result Config.t;
  dry_run : bool;
  stored_history : file_content;
  history_disk : disk_state;
  arxiv_api : string -> Z -> http_response;
  runner : ClaudeRunner;
  cleanup_time : Z;           (* local clock at [cleanup_old_entries] *)
  fetch_time : Z;             (* UTC clock at [fetch_recent] *)
  mark_time : Z               (* local clock at [mark_multiple_seen] *)
}.

Section Main.
Context `{DatetimeLib}.

(** [x in selected_ids] *)
Definition id_in (x : string) (ids : list string) : bool :=
  existsb (String.eqb x) ids.

Definition papers_to_mark (unseen_papers : list Paper)
    (selected_ids : list string) : list mark_request :=
  map (fun paper => (Some (arxiv_id paper), Some (title paper)))
    (List.filter (fun paper => id_in (arxiv_id paper) selected_ids)
       unseen_papers).

(** [main] from the cleanup of the history onwards. *)
Definition pipeline (env : Environment) (config : Config.t) : M Z :=
  let* removed := cleanup_old_entries (cleanup_time env) in
  let query := get_arxiv_query config in
  let* papers :=
    lift (fetch_recent (arxiv_api env) config (fetch_time env) query) in
  if negb (truthy_list papers) then ret 0
  else
    let* unseen_papers := gets (fun history => filter_unseen history papers) in
    if negb (truthy_list unseen_papers) then ret 0
    else if dry_run env then ret 0
    else
      lift (save_candidates (runner env) unseen_papers) >>
      let* outcome := lift (run (runner env)) in
      let '(success, selected_ids) := outcome in
      if negb success then ret 1
      else
        (if truthy_list selected_ids
         then mark_multiple_seen (mark_time env)
                (papers_to_mark unseen_papers selected_ids)
         else ret tt) >>
        ret 0.

(** [main]: the exit code, or the exception that ends the process, and
    the history manager when one was made. *)
Definition main (env : Environment) : result Z * option HistoryManager :=
  match load_config env with
  | Raise e =>
      if existsb (is_instance e) [FileNotFoundError; ValueError]
      then (Ok 1, None)
      else (Raise e, None)
  | Ok config =>
      match init (stored_history env) (history_disk env)
              (Config.history_retention_days config) with
      | Raise e => (Raise e, None)
      | Ok history =>
          let '(code, history) := pipeline env config history in
          (code, Some history)
      end
  end.

End Main.


(* ===================================================================== *)
(** * history_manager.py: statistics *)
(* ===================================================================== *)

Record Stats : Type := mkStats {
  total_papers : Z;
  stats_last_updated : option string
}.

Definition get_stats (self : HistoryManager) : Stats :=
  {| total_papers := Z.of_nat (size (papers (data self)));
     stats_last_updated := last_updated (data self) |}.

(* ===================================================================== *)
(** * config_loader.py: validation *)
(* ===================================================================== *)


(* ===================================================================== *)
(** * notifier.py: Notifier._escape *)
(* ===================================================================== *)

Definition backslash : string := chr 92.

Definition _escape (text : string) : string :=
  replace dquote (backslash +:+ dquote)
    (replace backslash (backslash +:+ backslash) text).
(* ===================================================================== *)
(** * Vocabulary of the properties and sample data *)
(* ===================================================================== *)

#[local] Arguments String.append !_ _ / : simpl nomatch.

Definition chars : string -> list ascii := String.list_ascii_of_string.

Definition slash : ascii := "/"%char.

Definition is_decimal (a : ascii) : bool :=
  match digit a with Some _ => true | None => false end.

(** ["v"] followed by at least one decimal digit. *)
Definition is_revision_suffix (r : string) : bool :=
  match r with
  | String c (String d ds) =>
      Ascii.eqb c "v" && forallb is_decimal (d :: chars ds)
  | _ => false
  end.

Definition entry_with_id (i : string) : Entry.t :=
  Entry.mk (Some i) (Some "Attention") (Some "An abstract.")
    [Some "A. Author"] [Some "cs.LG"] (Some "2024-01-15T12:34:56Z")
    (Some "2024-01-16T08:00:00Z").



(** [mark_seen] called again for the same identifier, once per element of
    [marks] (the clock reading and the title of each call). *)
Fixpoint mark_seen_each `{DatetimeLib} (arxiv_id : string)
    (marks : list (Z * string)) (self : HistoryManager) : HistoryManager :=
  match marks with
  | [] => self
  | (now, title) :: rest =>
      mark_seen_each arxiv_id rest (mark_seen now arxiv_id title self).2
  end.

(** The ledger entry a call of [mark_seen] writes. *)
Definition entry_of_mark `{DatetimeLib} (mark : Z * string) : LedgerEntry :=
  mkEntry mark.2 (Some (isoformat (now_local mark.1))).

(** What [filter_by_date] makes of the [published] text of a paper. *)
Definition parsed_published `{DatetimeLib} (paper : Paper) : option datetime :=
  fromisoformat (replace "Z" "+00:00" (published paper)).

(** The text parses to a timestamp without UTC offset. *)
Definition offset_free `{DatetimeLib} (paper : Paper) : bool :=
  match parsed_published paper with
  | Some d => is_naive d
  | None => false
  end.

(** The paper passes the recency test against the UTC instant [cutoff]:
    its text does not parse, or parses to an instant not before it. *)
Definition recent `{DatetimeLib} (cutoff : Z) (paper : Paper) : bool :=
  match parsed_published paper with
  | Some d => instant d >=? cutoff
  | None => true
  end.

(** Sample papers and clock readings. *)
Definition paper_published (id text : string) : Paper :=
  mkPaper id "A title" ["A. Author"] "An abstract." ["cs.LG"] text text
    ("http://arxiv.org/abs/" +:+ id +:+ "v1")
    ("http://arxiv.org/pdf/" +:+ id +:+ "v1.pdf").

Definition noon_1_june_2024 : Z := wall (naive 2024 6 1 12 0 0).

Definition entry_published (i text : string) : Entry.t :=
  Entry.mk (Some i) (Some "A title") (Some "An abstract.")
    [Some "A. Author"] [Some "cs.LG"] (Some text) (Some text).

(** A catalog that answers every query with the same two entries, the
    second with a date that carries no timezone. *)
Definition catalog_with_naive_date (query : string) (max_results : Z)
    : http_response :=
  Feed [entry_published "http://arxiv.org/abs/2405.00002v1" "2024-05-31T09:30:00Z";
        entry_published "http://arxiv.org/abs/2405.00001v1" "2024-05-30T09:30:00"].

(** The time an entry was seen, when its [seen_at] is a text that
    parses. *)
Definition seen_time `{DatetimeLib} (info : LedgerEntry) : option datetime :=
  match info with
  | mkEntry _ (Some text) => fromisoformat text
  | _ => None
  end.

(** [seen_at] parses and its wall-clock reading is strictly before
    [cutoff]. *)
Definition expired `{DatetimeLib} (cutoff : Z) (info : LedgerEntry) : bool :=
  match seen_time info with
  | Some d => wall d <? cutoff
  | None => false
  end.

(** An entry that the scan of [cleanup_old_entries] reads without
    [TypeError]: a dictionary whose [seen_at] is absent, is a text that is
    no date, or is a text that reads as a timestamp without UTC offset.
    The other entries are those whose [seen_at] is no text, those that are
    no dictionaries, and those whose [seen_at] reads as a timestamp with
    an offset. *)
Definition plain_entry `{DatetimeLib} (info : LedgerEntry) : bool :=
  match info with
  | OtherValue => false
  | mkEntry _ _ =>
      match seen_time info with
      | Some d => is_naive d
      | None => true
      end
  end.

(** Every entry of the ledger is plain.  The entries that [mark_seen]
    and [mark_multiple_seen] write are: their [seen_at] is the text of the
    naive [datetime.now()]. *)
Definition plain_ledger `{DatetimeLib} (m : gmap string LedgerEntry) : bool :=
  forallb (fun item => plain_entry item.2) (map_to_list m).

(** [now - timedelta(days=days)] is a date: the number of days is one a
    [timedelta] holds and the result lies in the years 1 to 9999. *)
Definition cutoff_in_range (now days : Z) : bool :=
  (- max_delta_days <=? days) && (days <=? max_delta_days)
  && in_range (now - days * day_us).

(** A history with four entries at noon of 1 June 2024: one seen 91 days
    before, one seen exactly 90 days before, one without [seen_at] and
    one whose [seen_at] is no date. *)
Definition sample_ledger : Ledger :=
  mkLedger
    (<["2403.00001" := mkEntry "Seen 91 days ago" (Some "2024-03-02T12:00:00")]>
     (<["2403.00002" := mkEntry "Seen 90 days ago" (Some "2024-03-03T12:00:00")]>
      (<["2403.00003" := mkEntry "No date" None]>
       (<["2403.00004" := mkEntry "Garbled date" (Some "yesterday")]> ∅))))
    (Some "2024-05-31T08:00:00").

Definition sample_history (d : disk_state) : HistoryManager :=
  mkHistory (Json sample_ledger) d 0 90 sample_ledger.

(** The same history with one more entry, whose [seen_at] carries a UTC
    offset. *)
Definition ledger_with_offset : Ledger :=
  mkLedger
    (<["2001.00001" := mkEntry "Seen in UTC" (Some "2020-01-01T00:00:00+00:00")]>
       (papers sample_ledger))
    (last_updated sample_ledger).

Definition history_with_offset : HistoryManager :=
  mkHistory (Json ledger_with_offset) DiskOk 0 90 ledger_with_offset.

(** The sample history with one more entry, whose [seen_at] is [null]. *)
Definition ledger_with_null : Ledger :=
  mkLedger (<["2403.00005" := OtherValue]> (papers sample_ledger))
    (last_updated sample_ledger).

Definition history_with_null : HistoryManager :=
  mkHistory (Json ledger_with_null) DiskOk 0 90 ledger_with_null.

(** The ways the summarization process fails: a non-zero exit status, a
    timeout, a missing CLI, any other exception. *)
Definition process_failed (outcome : process_outcome) : bool :=
  match outcome with
  | Exited returncode => negb (returncode =? 0)
  | ProcessTimeout | CliNotFound | ProcessError => true
  end.

(** A run of [main] with two fresh candidates, in which the summarization
    process ends as [outcome]. *)
Definition catalog_of_two (query : string) (max_results : Z) : http_response :=
  Feed [entry_published "http://arxiv.org/abs/2405.00002v1" "2024-05-31T09:30:00Z";
        entry_published "http://arxiv.org/abs/2405.00001v2" "2024-05-30T09:30:00Z"].

Definition sample_environment (outcome : process_outcome) : Environment :=
  mkEnv (Ok (config_of ["cs.LG"] [])) false (Json sample_ledger) DiskOk
    catalog_of_two
    (mkRunner (Ok tt) (Ok tt) outcome ["2405.00002"])
    noon_1_june_2024 noon_1_june_2024 noon_1_june_2024.

(** The scenario of the specification: five papers in the order of the
    catalog, two of them published ten days before the run. *)
Definition catalog_of_five (query : string) (max_results : Z) : http_response :=
  Feed [entry_published "http://arxiv.org/abs/2405.00005v1" "2024-05-31T09:30:00Z";
        entry_published "http://arxiv.org/abs/2405.00004v1" "2024-05-30T09:30:00Z";
        entry_published "http://arxiv.org/abs/2405.00003v2" "2024-05-22T09:30:00Z";
        entry_published "http://arxiv.org/abs/2405.00002v1" "2024-05-29T09:30:00Z";
        entry_published "http://arxiv.org/abs/2405.00001v3" "2024-05-22T12:00:00Z"].

Definition history_with_one_seen : HistoryManager :=
  mkHistory Missing DiskOk 0 90
    (mkLedger {["2405.00004" := mkEntry "A title" (Some "2024-05-30T20:00:00")]}
       None).


(** ** Vocabulary of the further properties *)





(** The environment of a run with another summarization runner. *)
Definition with_runner (other : ClaudeRunner) (env : Environment) : Environment :=
  mkEnv (load_config env) (dry_run env) (stored_history env) (history_disk env)
    (arxiv_api env) other (cleanup_time env) (fetch_time env) (mark_time env).

(** [s] with every occurrence of the character [c] replaced by [new]. *)
Fixpoint subst_char (c : ascii) (new : string) (s : string) : string :=
  match s with
  | EmptyString => EmptyString
  | String a s' =>
      (if Ascii.eqb a c then new else String a EmptyString)
      +:+ subst_char c new s'
  end.


(** How the body of a quoted literal is read: up to the first double
    quote that no backslash precedes, a backslash standing for the
    character after it.  The result is the text read and what follows the
    closing quote; [None] when the literal is not closed. *)
Fixpoint read_literal (s : string) : option (string * string) :=
  match s with
  | EmptyString => None
  | String c rest =>
      if Ascii.eqb c (ascii_of_nat 34) then Some (EmptyString, rest)
      else if Ascii.eqb c (ascii_of_nat 92) then
        match rest with
        | EmptyString => None
        | String d rest' =>
            match read_literal rest' with
            | Some (text, after) => Some (String d text, after)
            | None => None
            end
        end
      else
        match read_literal rest with
        | Some (text, after) => Some (String c text, after)
        | None => None
        end
  end.

(** A history in which both papers of [catalog_of_two] are seen. *)
Definition ledger_of_two : Ledger :=
  mkLedger
    (<["2405.00002" := mkEntry "A title" (Some "2024-05-31T20:00:00")]>
       {["2405.00001" := mkEntry "A title" (Some "2024-05-30T20:00:00")]})
    None.

(** What [_escape] makes of one character. *)
Definition escape_char (c : ascii) : string :=
  if Ascii.eqb c (ascii_of_nat 92) then backslash +:+ backslash
  else if Ascii.eqb c (ascii_of_nat 34) then backslash +:+ dquote
  else String c EmptyString.

(* ===================================================================== *)
(** * Properties *)
(* ===================================================================== *)

(** ** Strings *)

Lemma chars_app s t : chars (s +:+ t) = chars s ++ chars t.
Proof. induction s as [|a s IH]; simpl; [done | by f_equal]. Qed.

Lemma append_empty_r s : s +:+ EmptyString = s.
Proof. induction s as [|a s IH]; simpl; [done | by f_equal]. Qed.

Lemma append_assoc s t u : (s +:+ t) +:+ u = s +:+ t +:+ u.
Proof. induction s as [|a s IH]; simpl; [done | by f_equal]. Qed.

Lemma str_prefix_length p s :
  String.prefix p s = true -> (String.length p <= String.length s)%nat.
Proof.
  revert s; induction p as [|a p IH]; intros [|b s]; simpl; try lia; try done.
  destruct (ascii_dec a b); [|done]. intros Hp. apply IH in Hp. lia.
Qed.

Lemma str_prefix_empty s : String.prefix EmptyString s = true.
Proof. by destruct s. Qed.

(** A one-character needle occurs in [s] exactly when the character is
    among the characters of [s]. *)
Lemma str_in_char c s : str_in (String c EmptyString) s = true <-> In c (chars s).
Proof.
  induction s as [|a s IH]; simpl.
  - split; [done | tauto].
  - destruct (ascii_dec c a) as [->|Hne]; simpl.
    + rewrite str_prefix_empty. split; auto.
    + rewrite IH. split; [auto | intros [?|?]; congruence].
Qed.

Lemma str_in_char_false c s :
  str_in (String c EmptyString) s = false <-> ~ In c (chars s).
Proof. rewrite <- str_in_char. destruct (str_in _ s); split; congruence. Qed.

Lemma rsplit1_None c s : rsplit1 c s = None <-> ~ In c (chars s).
Proof.
  induction s as [|a s IH]; simpl; [tauto|].
  destruct (rsplit1 c s) as [[p q]|] eqn:Hr.
  - split; [done|]. intros Hn.
    assert (~ In c (chars s)) as Hs by tauto.
    apply IH in Hs. done.
  - destruct (Ascii.eqb_spec a c) as [->|Hne].
    + split; [done | intros Hn; exfalso; apply Hn; by left].
    + split; [|done]. intros _ [?|?]; [done|]. by apply (proj1 IH).
Qed.

(** [rsplit1] cuts at the last occurrence of the separator. *)
Lemma rsplit1_Some c s p q :
  rsplit1 c s = Some (p, q) <->
  s = p +:+ String c q /\ ~ In c (chars q).
Proof.
  revert p q; induction s as [|a s IH]; intros p q; simpl.
  - split; [done | intros [Hs _]; destruct p; discriminate].
  - destruct (rsplit1 c s) as [[p' q']|] eqn:Hr.
    + destruct (proj1 (IH p' q') eq_refl) as [Hs' Hq'].
      assert (In c (chars s)) as Hin.
      { rewrite Hs', chars_app. apply in_app_iff. right. by left. }
      split.
      * intros [= <- <-]. by rewrite Hs'.
      * intros [Hs Hq]. destruct p as [|b p]; simpl in Hs.
        -- injection Hs as _ Hsq. exfalso. apply Hq. by rewrite <- Hsq.
        -- injection Hs as <- Hs.
           assert (Some (p', q') = Some (p, q)) as [= -> ->]; [|done].
           by apply IH.
    + assert (forall p q, ~ (s = p +:+ String c q /\ ~ In c (chars q))) as Hno.
      { intros p0 q0 Hpq. by apply IH in Hpq. }
      apply rsplit1_None in Hr.
      destruct (Ascii.eqb_spec a c) as [->|Hne].
      * split.
        -- by intros [= <- <-].
        -- intros [Hs Hq]. destruct p as [|b p]; simpl in Hs.
           ++ by injection Hs as ->.
           ++ injection Hs as <- Hs. exfalso. by apply (Hno p q).
      * split; [done|]. intros [Hs Hq]. destruct p as [|b p]; simpl in Hs.
        -- by injection Hs as -> ->.
        -- injection Hs as <- Hs. exfalso. by apply (Hno p q).
Qed.

Lemma rsplit1_head_app c p q :
  ~ In c (chars q) -> rsplit1_head c (p +:+ String c q) = p.
Proof.
  intros Hq. unfold rsplit1_head.
  by rewrite (proj2 (rsplit1_Some c (p +:+ String c q) p q) (conj eq_refl Hq)).
Qed.

(** ** The last piece of a split at ["/abs/"] *)

Lemma str_prefix_cons a p b s :
  String.prefix (String a p) (String b s)
  = if ascii_dec a b then String.prefix p s else false.
Proof. reflexivity. Qed.

Lemma str_prefix_chars p t c :
  String.prefix p t = true -> In c (chars p) -> In c (chars t).
Proof.
  revert t; induction p as [|a p IH]; intros [|b t]; simpl; try done.
  destruct (ascii_dec a b) as [->|]; [|done].
  intros Hp [->|Hc]; [by left | right; by apply IH].
Qed.

(** A needle whose last character does not occur in [t] cannot start
    inside [s] and end inside [t]. *)
Lemma str_prefix_app_boundary p s t c :
  last (chars p) = Some c -> ~ In c (chars t) ->
  String.prefix p (s +:+ t) = String.prefix p s.
Proof.
  revert s; induction p as [|a p IH]; intros s Hlast Hc; [done|].
  assert (In c (chars (String a p))) as Hin.
  { apply list_elem_of_In, last_Some_elem_of. exact Hlast. }
  destruct s as [|b s]; simpl.
  - destruct (String.prefix (String a p) t) eqn:Hp.
    + exfalso. apply Hc. by apply (str_prefix_chars (String a p)).
    + by destruct t.
  - destruct (ascii_dec a b); [|done].
    destruct p as [|a' p]; [by rewrite !str_prefix_empty|].
    apply IH; [|done]. simpl in Hlast |- *. exact Hlast.
Qed.

Lemma split_aux_nonempty sep skip cur s : split_aux sep skip cur s <> [].
Proof.
  revert skip cur; induction s as [|c s IH]; intros skip cur;
    cbn [split_aux]; [discriminate|].
  destruct skip; [|apply IH].
  destruct (String.prefix sep (String c s)); [discriminate | apply IH].
Qed.

Lemma last_item_cons x l : l <> [] -> last_item (x :: l) = last_item l.
Proof. by destruct l. Qed.

Lemma split_abs_plain t cur :
  ~ In slash (chars t) -> split_aux "/abs/" 0 cur t = [cur +:+ t].
Proof.
  revert cur; induction t as [|c t IH]; intros cur Hno.
  - simpl. by rewrite append_empty_r.
  - cbn [split_aux].
    assert (String.prefix "/abs/" (String c t) = false) as ->.
    { rewrite str_prefix_cons. destruct (ascii_dec "/" c) as [<-|]; [|done].
      exfalso. apply Hno. by left. }
    rewrite IH; [|intros Hin; apply Hno; by right].
    by rewrite append_assoc.
Qed.

Lemma split_abs_app_last s t skip cur :
  ~ In slash (chars t) -> (skip <= String.length s)%nat ->
  last_item (split_aux "/abs/" skip cur (s +:+ t))
  = last_item (split_aux "/abs/" skip cur s) +:+ t.
Proof.
  intros Hno. revert skip cur; induction s as [|c s IH]; intros skip cur Hskip.
  - simpl in Hskip. assert (skip = 0%nat) as -> by lia.
    simpl. by rewrite split_abs_plain.
  - change (String c s +:+ t) with (String c (s +:+ t)).
    cbn [split_aux]. destruct skip as [|k].
    + change (String c (s +:+ t)) with (String c s +:+ t).
      rewrite (str_prefix_app_boundary "/abs/" (String c s) t slash); [|done..].
      destruct (String.prefix "/abs/" (String c s)) eqn:Hp.
      * apply str_prefix_length in Hp. simpl in Hp.
        rewrite !last_item_cons by apply split_aux_nonempty.
        apply IH. simpl. lia.
      * apply IH. lia.
    + apply IH. simpl in Hskip. lia.
Qed.

Lemma split_abs_suffix base t :
  ~ In slash (chars t) ->
  last_item (split "/abs/" (base +:+ t))
  = last_item (split "/abs/" base) +:+ t.
Proof. intros Hno. apply split_abs_app_last; [done | lia]. Qed.

(** ** Revision suffixes *)

Lemma decimal_not c l :
  is_decimal c = false -> forallb is_decimal l = true -> ~ In c l.
Proof.
  intros Hc Hl Hin. rewrite forallb_forall in Hl. apply Hl in Hin. congruence.
Qed.

Lemma revision_suffix_inv r :
  is_revision_suffix r = true ->
  exists ds, r = String "v" ds /\ ~ In "v"%char (chars ds)
             /\ ~ In slash (chars r).
Proof.
  destruct r as [|c [|d ds]]; simpl; try done.
  intros [Hc Hd]%andb_prop. apply Ascii.eqb_eq in Hc as ->.
  exists (String d ds). split; [done|]. split.
  - apply (decimal_not "v" (d :: chars ds)); done.
  - intros [?|Hin]; [done|]. revert Hin.
    apply (decimal_not slash (d :: chars ds)); done.
Qed.

Lemma normalize_id_revision base r :
  is_revision_suffix r = true ->
  normalize_id (base +:+ r) = last_item (split "/abs/" base).
Proof.
  intros (ds & -> & Hv & Hs)%revision_suffix_inv.
  unfold normalize_id. rewrite split_abs_suffix by done.
  set (tail := last_item (split "/abs/" base)).
  assert (str_in "v" (tail +:+ String "v" ds) = true) as ->.
  { apply str_in_char. rewrite chars_app. apply in_app_iff. right. by left. }
  by apply rsplit1_head_app.
Qed.

(** C5: two catalog entries whose identifiers differ only in a trailing
    revision suffix (["v1"] against ["v2"]) get the same [arxiv_id] from
    [Paper.from_entry]: the suffix is stripped, what remains is the text
    of the common part after ["/abs/"]. *)
Theorem from_entry_revisions_collapse (e1 e2 : Entry.t) (base r1 r2 : string) :
  Entry.id e1 = Some (base +:+ r1) ->
  Entry.id e2 = Some (base +:+ r2) ->
  is_revision_suffix r1 = true ->
  is_revision_suffix r2 = true ->
  exists p1 p2,
    from_entry e1 = Ok p1 /\ from_entry e2 = Ok p2
    /\ arxiv_id p1 = arxiv_id p2
    /\ arxiv_id p1 = last_item (split "/abs/" base).
Proof.
  intros H1 H2 Hr1 Hr2. unfold from_entry. rewrite H1, H2.
  eexists _, _. repeat split; cbn [arxiv_id].
  - by rewrite !normalize_id_revision.
  - by rewrite normalize_id_revision.
Qed.

Lemma from_entry_revisions_collapse_witness :
  exists p1 p2,
    from_entry (entry_with_id "http://arxiv.org/abs/2401.12345v1") = Ok p1
    /\ from_entry (entry_with_id "http://arxiv.org/abs/2401.12345v12") = Ok p2
    /\ arxiv_id p1 = arxiv_id p2
    /\ arxiv_id p1 = last_item (split "/abs/" "http://arxiv.org/abs/2401.12345").
Proof.
  apply (from_entry_revisions_collapse
           (entry_with_id "http://arxiv.org/abs/2401.12345v1")
           (entry_with_id "http://arxiv.org/abs/2401.12345v12")
           "http://arxiv.org/abs/2401.12345" "v1" "v12");
    reflexivity.
Defined.

(** C10: the identifier of an entry is the text after ["/abs/"]; when it
    has a ['v'] anywhere, [Paper.from_entry] keeps what precedes the last
    ['v'] and drops the rest, whether or not that ['v'] starts a revision
    suffix; when it has none, the identifier is kept as it is. *)
Theorem from_entry_cuts_at_last_v (entry : Entry.t) (i : string) :
  Entry.id entry = Some i ->
  exists paper,
    from_entry entry = Ok paper
    /\ (In "v"%char (chars (last_item (split "/abs/" i))) ->
        exists pre suf,
          last_item (split "/abs/" i) = pre +:+ String "v" suf
          /\ ~ In "v"%char (chars suf)
          /\ arxiv_id paper = pre)
    /\ (~ In "v"%char (chars (last_item (split "/abs/" i))) ->
        arxiv_id paper = last_item (split "/abs/" i)).
Proof.
  intros Hid. unfold from_entry. rewrite Hid. eexists. split; [done|].
  cbn [arxiv_id]. unfold normalize_id.
  set (ident := last_item (split "/abs/" i)). split.
  - intros Hin. rewrite (proj2 (str_in_char "v" ident) Hin).
    unfold rsplit1_head. destruct (rsplit1 "v" ident) as [[pre suf]|] eqn:Hr.
    + apply rsplit1_Some in Hr as [Hs Hsuf]. by exists pre, suf.
    + apply rsplit1_None in Hr. done.
  - intros Hnot. by rewrite (proj2 (str_in_char_false "v" ident) Hnot).
Qed.

(** An identifier of the old scheme without revision suffix: the cut falls
    inside the archive name. *)
Lemma from_entry_cuts_at_last_v_witness :
  exists paper,
    from_entry (entry_with_id "http://arxiv.org/abs/solv-int/9901001") = Ok paper
    /\ (In "v"%char (chars "solv-int/9901001") ->
        exists pre suf,
          "solv-int/9901001" = pre +:+ String "v" suf
          /\ ~ In "v"%char (chars suf)
          /\ arxiv_id paper = pre)
    /\ (~ In "v"%char (chars "solv-int/9901001") ->
        arxiv_id paper = "solv-int/9901001").
Proof.
  apply (from_entry_cuts_at_last_v
           (entry_with_id "http://arxiv.org/abs/solv-int/9901001")
           "http://arxiv.org/abs/solv-int/9901001").
  reflexivity.
Defined.

Example normalize_id_old_scheme :
  normalize_id "http://arxiv.org/abs/solv-int/9901001" = "sol"
  /\ normalize_id "http://arxiv.org/abs/solv-int/9901001v2" = "solv-int/9901001"
  /\ normalize_id "http://arxiv.org/abs/2401.12345" = "2401.12345".
Proof. by vm_compute. Qed.

(** ** The query builder *)


(** C4: the query for categories [cs.LG] alone is [(cat:cs.LG)]; for the
    keyword [large language model] alone it is the parenthesized
    disjunction of the quoted title term and the quoted abstract term; for
    [cs.LG] with the keyword [llm] it is the category group and the keyword
    group joined by [" AND "]; with neither (empty lists, absent keys or no
    [interests] section) it is the fallback [cat:cs.LG]. *)
Theorem get_arxiv_query_composition (d m r : Z) :
  get_arxiv_query
    (Config.mk (Some (Config.mkInterests (Some ["cs.LG"]) (Some []))) d m r)
  = "(cat:cs.LG)"
  /\ get_arxiv_query
       (Config.mk (Some (Config.mkInterests (Some [])
                           (Some ["large language model"]))) d m r)
     = "(ti:" +:+ dquote +:+ "large language model" +:+ dquote
       +:+ " OR abs:" +:+ dquote +:+ "large language model" +:+ dquote +:+ ")"
  /\ get_arxiv_query
       (Config.mk (Some (Config.mkInterests (Some ["cs.LG"]) (Some ["llm"])))
          d m r)
     = "(cat:cs.LG)" +:+ " AND " +:+ "(ti:llm OR abs:llm)"
  /\ get_arxiv_query
       (Config.mk (Some (Config.mkInterests (Some []) (Some []))) d m r)
     = "cat:cs.LG"
  /\ get_arxiv_query
       (Config.mk (Some (Config.mkInterests None None)) d m r)
     = "cat:cs.LG"
  /\ get_arxiv_query (Config.mk None d m r) = "cat:cs.LG".
Proof. repeat split; reflexivity. Qed.
(** ** The cutoff of a window of days *)

(** [now - timedelta(days=days)] is the reading [days] days before [now]
    when that is a date, and raises [OverflowError] otherwise. *)
Lemma cutoff_cases {A} now o days (k : datetime -> result A) :
  rbind (timedelta_days days)
    (fun delta => rbind (Datetime.sub (Datetime.mk now o) delta) k)
  = if cutoff_in_range now days
    then k (Datetime.mk (now - days * day_us) o)
    else Raise OverflowError.
Proof.
  unfold cutoff_in_range, timedelta_days, Datetime.sub.
  destruct ((- max_delta_days <=? days) && (days <=? max_delta_days));
    [|done].
  cbn [rbind wall utcoffset andb]. by destruct (in_range _).
Qed.

Lemma cutoff_cases_M {A} now o days (k : datetime -> M A) self :
  bind (lift (timedelta_days days))
    (fun delta => bind (lift (Datetime.sub (Datetime.mk now o) delta)) k) self
  = if cutoff_in_range now days
    then k (Datetime.mk (now - days * day_us) o) self
    else (Raise OverflowError, self).
Proof.
  unfold cutoff_in_range, timedelta_days, Datetime.sub, bind, lift.
  destruct ((- max_delta_days <=? days) && (days <=? max_delta_days));
    [|done].
  cbn [wall utcoffset andb]. by destruct (in_range _).
Qed.


(** ** The seen ledger *)

Lemma last_cons_default {A} (x d : A) (l : list A) :
  List.last (x :: l) d = List.last l x.
Proof.
  revert x d; induction l as [|y l IH]; intros x d; [done|].
  change (List.last (x :: y :: l) d) with (List.last (y :: l) d).
  by rewrite !IH.
Qed.

Section Ledger.
Context `{DatetimeLib}.

Lemma is_seen_true self id :
  is_seen self id = true <-> is_Some (papers (data self) !! id).
Proof. unfold is_seen. by rewrite bool_decide_eq_true. Qed.

Lemma is_seen_false self id :
  is_seen self id = false <-> papers (data self) !! id = None.
Proof.
  unfold is_seen. rewrite bool_decide_eq_false. by rewrite eq_None_not_Some.
Qed.

(** [_save] leaves the [papers] dictionary alone. *)
Lemma save_papers now self :
  papers (data (_save now self).2) = papers (data self).
Proof. destruct self as [f [] w r l]; reflexivity. Qed.

Lemma mark_seen_papers now id title self :
  papers (data (mark_seen now id title self).2)
  = <[id := entry_of_mark (now, title)]> (papers (data self)).
Proof.
  unfold mark_seen, bind, modify. cbn beta iota. by rewrite save_papers.
Qed.

Lemma mark_seen_result now id title self :
  (mark_seen now id title self).1
  = match disk self with DiskOk => Ok tt | _ => Raise OSError end.
Proof. destruct self as [f [] w r l]; reflexivity. Qed.

Lemma mark_seen_each_papers id marks self first :
  papers (data (mark_seen_each id marks (mark_seen first.1 id first.2 self).2))
  = <[id := entry_of_mark (List.last marks first)]> (papers (data self)).
Proof.
  revert self first; induction marks as [|[now title] marks IH];
    intros self [now0 title0].
  - apply mark_seen_papers.
  - cbn [mark_seen_each fst snd].
    rewrite (IH _ (now, title)). rewrite mark_seen_papers.
    by rewrite insert_insert_eq, last_cons_default.
Qed.

Lemma filter_unseen_In self papers p :
  In p (filter_unseen self papers) <->
  In p papers /\ is_seen self (arxiv_id p) = false.
Proof.
  unfold filter_unseen. rewrite filter_In. by rewrite negb_true_iff.
Qed.

End Ledger.

(** C1: after [mark_seen(id, title)] the identifier is seen, and it stays
    seen however often [mark_seen(id, ...)] is called again;
    [filter_unseen] then keeps no paper with that identifier, whatever
    list it is given.  The repeated calls change nothing but the entry
    under [id], which holds the title and the time of the last call: the
    identifiers that are seen are those seen after the first call. *)
Theorem mark_seen_idempotent_dedup `{DatetimeLib} (self : HistoryManager)
    (id : string) (now : Z) (title : string) (again : list (Z * string)) :
  let once := (mark_seen now id title self).2 in
  let many := mark_seen_each id again once in
  is_seen once id = true
  /\ is_seen many id = true
  /\ (forall papers p, In p (filter_unseen many papers) -> arxiv_id p <> id)
  /\ (forall other, is_seen many other = is_seen once other)
  /\ (forall other, other <> id ->
        papers (data many) !! other = papers (data self) !! other)
  /\ papers (data many) !! id
     = Some (entry_of_mark (List.last again (now, title))).
Proof.
  intros once many.
  assert (papers (data once)
          = <[id := entry_of_mark (now, title)]> (papers (data self))) as Honce
    by apply mark_seen_papers.
  assert (papers (data many)
          = <[id := entry_of_mark (List.last again (now, title))]>
              (papers (data self))) as Hmany
    by apply (mark_seen_each_papers id again self (now, title)).
  assert (is_seen many id = true) as Hseen.
  { apply is_seen_true. rewrite Hmany, lookup_insert_eq. by eexists. }
  repeat split.
  - apply is_seen_true. rewrite Honce, lookup_insert_eq. by eexists.
  - exact Hseen.
  - intros ps p [_ Hp]%filter_unseen_In Heq. rewrite Heq in Hp. congruence.
  - intros other. unfold is_seen. rewrite Honce, Hmany.
    destruct (decide (id = other)) as [->|Hne].
    + by rewrite !lookup_insert_eq.
    + by rewrite !lookup_insert_ne.
  - intros other Hne. rewrite Hmany. by rewrite lookup_insert_ne.
  - rewrite Hmany. by rewrite lookup_insert_eq.
Qed.

(** ** Loading the ledger *)

Lemma filter_unseen_empty self ps :
  papers (data self) = ∅ -> filter_unseen self ps = ps.
Proof.
  intros He. unfold filter_unseen. induction ps as [|p ps IH]; [done|].
  simpl. assert (is_seen self (arxiv_id p) = false) as ->.
  { apply is_seen_false. by rewrite He, lookup_empty. }
  simpl. by rewrite IH.
Qed.

Lemma cleanup_empty `{DatetimeLib} now f d w r :
  cleanup_old_entries now (mkHistory f d w r empty_ledger)
  = (if (r <=? 0) || cutoff_in_range now r then Ok 0
     else Raise OverflowError,
     mkHistory f d w r empty_ledger).
Proof.
  unfold cleanup_old_entries. unfold bind at 1. unfold gets at 1.
  cbn beta iota delta [retention_days].
  destruct (r <=? 0); [done|]. cbn [orb].
  unfold now_local. rewrite cutoff_cases_M.
  destruct (cutoff_in_range now r); [|done].
  unfold bind, gets, lift, modify, ret. cbn [data papers empty_ledger].
  by rewrite map_to_list_empty.
Qed.

Section Loading.
Context `{DatetimeLib}.

(** When the history file is missing, cannot be read or does not hold
    JSON, [HistoryManager] starts with the empty ledger
    [{papers: {}, last_updated: None}], the ledger it would load from a
    file that holds the empty ledger. *)
Lemma load_failure_empty_ledger file d retention :
  file = Missing \/ file = Unreadable \/ file = Malformed ->
  init file d retention = Ok (mkHistory file d 0 retention empty_ledger)
  /\ init (Json empty_ledger) d retention
     = Ok (mkHistory (Json empty_ledger) d 0 retention empty_ledger).
Proof. by intros [->|[->| ->]]. Qed.

(** On the empty ledger nothing is seen, [filter_unseen] keeps every
    paper, [cleanup_old_entries] removes nothing and [mark_seen] records
    its identifier as the only one seen. *)
Lemma empty_ledger_operations f d w r :
  let self := mkHistory f d w r empty_ledger in
  (forall id, is_seen self id = false)
  /\ (forall ps, filter_unseen self ps = ps)
  /\ (forall now, (cleanup_old_entries now self).2 = self)
  /\ (forall now id title other,
        is_seen (mark_seen now id title self).2 other
        = bool_decide (other = id)).
Proof.
  intros self. split_and!.
  - intros id. by apply is_seen_false.
  - intros ps. by apply filter_unseen_empty.
  - intros now. unfold self. by rewrite cleanup_empty.
  - intros now id title other. unfold is_seen. rewrite mark_seen_papers. cbn.
    destruct (decide (other = id)) as [->|Hne].
    + rewrite lookup_insert_eq.
      rewrite !bool_decide_eq_true_2; [done.. | by eexists].
    + rewrite lookup_insert_ne by done. rewrite lookup_empty.
      rewrite !bool_decide_eq_false_2; [done.. | by intros [? ?]].
Qed.

End Loading.

(** C8: loading the history is fatal when the file holds bytes that are
    not UTF-8.  Reading it raises [UnicodeDecodeError], which is neither
    a [JSONDecodeError] nor an [IOError], so [_load] does not fall back to
    the empty ledger: the constructor raises, no manager is made, and
    [main] ends with the exception.  A file that is missing, cannot be
    read or holds text that is not JSON gives the empty ledger. *)
Theorem load_undecodable_history_raises :
  (forall d retention, init NotUtf8 d retention = Raise UnicodeDecodeError)
  /\ existsb (is_instance UnicodeDecodeError) [JSONDecodeError; OSError]
     = false
  /\ main (H := cpython)
       (mkEnv (Ok (config_of ["cs.LG"] [])) false NotUtf8 DiskOk
          catalog_of_two (mkRunner (Ok tt) (Ok tt) (Exited 0) ["2405.00002"])
          noon_1_june_2024 noon_1_june_2024 noon_1_june_2024)
     = (Raise UnicodeDecodeError, None)
  /\ (forall file d retention,
        In file [Missing; Unreadable; Malformed] ->
        init file d retention
        = Ok (mkHistory file d 0 retention empty_ledger)).
Proof.
  split_and!; [done | done | done |].
  intros file d retention [<-|[<-|[<-|[]]]]; reflexivity.
Qed.

(** ** The recency filter *)

Section Recency.
Context `{DatetimeLib}.

Lemma filter_by_date_step_spec cutoff filtered paper :
  filter_by_date_step (Datetime.mk cutoff (Some 0)) filtered paper
  = if offset_free paper then Raise TypeError
    else Ok (if recent cutoff paper then filtered ++ [paper] else filtered).
Proof.
  unfold filter_by_date_step, offset_free, recent, parsed_published.
  destruct (fromisoformat _) as [[w [o|]]|]; cbn; [|done..].
  unfold instant; cbn. by rewrite Z.sub_0_r.
Qed.

Lemma filter_by_date_loop_spec cutoff papers filtered :
  filter_by_date_loop (Datetime.mk cutoff (Some 0)) papers filtered
  = if existsb offset_free papers then Raise TypeError
    else Ok (filtered ++ List.filter (recent cutoff) papers).
Proof.
  revert filtered; induction papers as [|p ps IH]; intros filtered.
  - cbn. by rewrite app_nil_r.
  - cbn [filter_by_date_loop existsb List.filter].
    rewrite filter_by_date_step_spec.
    destruct (offset_free p); [done|]. cbn [rbind orb]. rewrite IH.
    destruct (existsb offset_free ps); [done|].
    destruct (recent cutoff p); [|done]. by rewrite <- app_assoc.
Qed.

(** What [filter_by_date] does on every input: nothing when the window
    is disabled, [TypeError] as soon as one [published] text parses to a
    timestamp without offset, and otherwise the papers that pass the
    recency test. *)
Lemma filter_by_date_spec now papers days :
  filter_by_date now papers days
  = if days <=? 0 then Ok papers
    else if negb (cutoff_in_range now days) then Raise OverflowError
    else if existsb offset_free papers then Raise TypeError
    else Ok (List.filter (recent (now - days * day_us)) papers).
Proof.
  unfold filter_by_date. destruct (days <=? 0); [done|].
  unfold now_utc. rewrite cutoff_cases.
  destruct (cutoff_in_range now days); [|done].
  by rewrite filter_by_date_loop_spec.
Qed.

Lemma filter_bool_sublist {A} (f : A -> bool) (l : list A) :
  List.filter f l `sublist_of` l.
Proof.
  induction l as [|x l IH]; simpl; [constructor|].
  destruct (f x); by constructor.
Qed.

(** Whatever [filter_by_date] returns is a subsequence of its input. *)
Lemma filter_by_date_sublist now papers days out :
  filter_by_date now papers days = Ok out -> out `sublist_of` papers.
Proof.
  rewrite filter_by_date_spec. destruct (days <=? 0).
  - by intros [= <-].
  - destruct (cutoff_in_range now days); [|done]. cbn [negb].
    destruct (existsb offset_free papers); [done|].
    intros [= <-]. apply filter_bool_sublist.
Qed.

Lemma filter_unseen_sublist self ps : filter_unseen self ps `sublist_of` ps.
Proof. apply filter_bool_sublist. Qed.

(** Whenever [filter_by_date] returns, with a window in force, it has
    kept the papers whose date does not parse and dropped those whose
    date parses to an instant before the cutoff. *)
Lemma filter_by_date_fail_open now papers days out paper :
  0 < days ->
  filter_by_date now papers days = Ok out ->
  In paper papers ->
  (parsed_published paper = None -> In paper out)
  /\ (forall d, parsed_published paper = Some d ->
        instant d < now - days * day_us -> ~ In paper out).
Proof.
  intros Hdays. rewrite filter_by_date_spec.
  destruct (Z.leb_spec days 0) as [|_]; [lia|].
  destruct (cutoff_in_range now days); [|done]. cbn [negb].
  destruct (existsb offset_free papers); [done|].
  intros [= <-] Hin. split.
  - intros Hp. apply filter_In. split; [done|]. unfold recent. by rewrite Hp.
  - intros d Hp Hold [_ Hr]%filter_In. unfold recent in Hr.
    rewrite Hp in Hr. apply Z.geb_le in Hr. lia.
Qed.

(** It returns whenever no date parses to a timestamp without offset. *)
Lemma filter_by_date_returns now papers days :
  cutoff_in_range now days = true ->
  existsb offset_free papers = false ->
  exists out, filter_by_date now papers days = Ok out.
Proof.
  intros Hrange Hno. rewrite filter_by_date_spec, Hrange, Hno.
  destruct (days <=? 0); by eexists.
Qed.

(** When the cutoff is a date, one date without offset is enough for
    [TypeError]. *)
Lemma filter_by_date_raises now papers days paper :
  0 < days -> cutoff_in_range now days = true ->
  In paper papers -> offset_free paper = true ->
  filter_by_date now papers days = Raise TypeError.
Proof.
  intros Hdays Hrange Hin Hp. rewrite filter_by_date_spec, Hrange.
  destruct (Z.leb_spec days 0) as [|_]; [lia|]. cbn [negb].
  assert (existsb offset_free papers = true) as ->; [|done].
  apply existsb_exists. by exists paper.
Qed.

End Recency.

(** C9: [filter_by_date] is not total.  A [published] text without
    timezone information parses to a naive timestamp, whose comparison
    with the aware cutoff raises [TypeError]; the handler of the loop
    catches [ValueError] and [AttributeError] only, so the call ends
    with the exception instead of a list. *)
Theorem filter_by_date_naive_raises :
  parsed_published (H := cpython) (paper_published "2401.12345" "2024-05-31T09:30:00")
  = Some (naive 2024 5 31 9 30 0)
  /\ filter_by_date (H := cpython) noon_1_june_2024
       [paper_published "2401.12345" "2024-05-31T09:30:00"] 7
     = Raise TypeError.
Proof. split; vm_compute; reflexivity. Qed.

(** C2: a paper whose [published] text does not parse is lost with the
    whole result when another paper of the list carries a date without
    offset: [filter_by_date] raises [TypeError] and returns no output, so
    the unparsable paper is not kept in it. *)
Theorem filter_by_date_unparsable_not_kept :
  parsed_published (H := cpython) (paper_published "2401.00001" "not a date") = None
  /\ filter_by_date (H := cpython) noon_1_june_2024
       [paper_published "2401.00001" "not a date";
        paper_published "2401.00002" "2024-05-31T09:30:00"] 7
     = Raise TypeError
  /\ filter_by_date (H := cpython) noon_1_june_2024
       [paper_published "2401.00001" "not a date";
        paper_published "2401.00002" "2024-05-31T09:30:00Z";
        paper_published "2401.00003" "2024-05-01T09:30:00Z"] 7
     = Ok [paper_published "2401.00001" "not a date";
           paper_published "2401.00002" "2024-05-31T09:30:00Z"].
Proof. split_and!; vm_compute; reflexivity. Qed.

(** ** Order of the candidates *)

Lemma fetch_recent_sublist `{DatetimeLib} api config now query out :
  fetch_recent api config now query = Ok out ->
  exists full_query,
    out `sublist_of` fetch api full_query (Config.max_candidates config).
Proof.
  unfold fetch_recent. cbn zeta. unfold now_utc. rewrite cutoff_cases.
  destruct (cutoff_in_range _ _); [|done].
  intros Hout%filter_by_date_sublist. by eexists.
Qed.

(** Whenever the selection of [main] yields candidates, they are a
    subsequence of what [fetch] returned. *)
Lemma selection_preserves_order `{DatetimeLib} api config now query self out :
  fetch_recent api config now query = Ok out ->
  exists full_query,
    filter_unseen self out
    `sublist_of` fetch api full_query (Config.max_candidates config).
Proof.
  intros [q Hq]%fetch_recent_sublist. exists q.
  etrans; [apply filter_unseen_sublist | done].
Qed.

(** C6: [filter_by_date] does not return a subsequence of every list: on
    a list that holds a paper whose date has no timezone it returns
    nothing and raises [TypeError], and [fetch_recent] with it, so that no
    candidate list comes out of what [fetch] returned. *)
Theorem fetch_recent_naive_raises :
  fetch catalog_with_naive_date "(cat:cs.LG)" 50
  = [ mkPaper "2405.00002" "A title" ["A. Author"] "An abstract." ["cs.LG"]
        "2024-05-31T09:30:00Z" "2024-05-31T09:30:00Z"
        "http://arxiv.org/abs/2405.00002v1" "http://arxiv.org/pdf/2405.00002v1.pdf";
      mkPaper "2405.00001" "A title" ["A. Author"] "An abstract." ["cs.LG"]
        "2024-05-30T09:30:00" "2024-05-30T09:30:00"
        "http://arxiv.org/abs/2405.00001v1" "http://arxiv.org/pdf/2405.00001v1.pdf" ]
  /\ filter_by_date (H := cpython) noon_1_june_2024
       (fetch catalog_with_naive_date "(cat:cs.LG)" 50) 7
     = Raise TypeError
  /\ fetch_recent (H := cpython) catalog_with_naive_date
       (config_of ["cs.LG"] []) noon_1_june_2024 "(cat:cs.LG)"
     = Raise TypeError.
Proof. split_and!; vm_compute; reflexivity. Qed.

(** ** Retention *)

Section Retention.
Context `{DatetimeLib}.

Lemma plain_ledger_lookup m id info :
  plain_ledger m = true -> m !! id = Some info -> plain_entry info = true.
Proof.
  unfold plain_ledger. rewrite forallb_forall. intros Hall Hm.
  apply (Hall (id, info)). by apply list_elem_of_In, elem_of_map_to_list.
Qed.

Lemma cleanup_step_spec cutoff to_remove id info :
  cleanup_step (Datetime.mk cutoff None) to_remove (id, info)
  = if plain_entry info
    then Ok (if expired cutoff info then to_remove ++ [id] else to_remove)
    else Raise TypeError.
Proof.
  unfold cleanup_step, plain_entry, expired, seen_time.
  destruct info as [title [text|]|]; [|done..].
  by destruct (fromisoformat text) as [[w [o|]]|].
Qed.

Lemma cleanup_scan_spec cutoff items to_remove :
  cleanup_scan (Datetime.mk cutoff None) items to_remove
  = if forallb (fun item => plain_entry item.2) items
    then Ok (to_remove
             ++ (List.filter (fun item => expired cutoff item.2) items).*1)
    else Raise TypeError.
Proof.
  revert to_remove; induction items as [|[id info] items IH]; intros to_remove.
  - cbn. by rewrite app_nil_r.
  - cbn [cleanup_scan forallb List.filter snd]. rewrite cleanup_step_spec.
    destruct (plain_entry info); [|done]. cbn [rbind andb].
    rewrite IH. destruct (forallb _ items); [|done].
    destruct (expired cutoff info); [|done]. cbn. by rewrite <- app_assoc.
Qed.

Lemma delete_all_lookup ids (m : gmap string LedgerEntry) k :
  delete_all ids m !! k = if bool_decide (k ∈ ids) then None else m !! k.
Proof.
  revert m; induction ids as [|i ids IH]; intros m; [done|].
  cbn [delete_all fold_left]. fold (delete_all ids (delete i m)). rewrite IH.
  destruct (decide (k ∈ ids)) as [Hin|Hnin].
  - rewrite !bool_decide_eq_true_2; [done | by right | done].
  - rewrite (bool_decide_eq_false_2 (k ∈ ids)) by done.
    destruct (decide (k = i)) as [->|Hne].
    + rewrite bool_decide_eq_true_2 by by left. apply lookup_delete_eq.
    + rewrite bool_decide_eq_false_2; [by apply lookup_delete_ne|].
      by intros [?|?]%elem_of_cons.
Qed.

Lemma delete_all_size ids (m : gmap string LedgerEntry) :
  NoDup ids -> (forall k, k ∈ ids -> is_Some (m !! k)) ->
  (size (delete_all ids m) + length ids = size m)%nat.
Proof.
  revert m; induction ids as [|i ids IH]; intros m Hnd Hin; [simpl; lia|].
  apply NoDup_cons in Hnd as [Hi Hnd].
  cbn [delete_all fold_left length]. fold (delete_all ids (delete i m)).
  assert (is_Some (m !! i)) as Hsome by (apply Hin; by left).
  pose proof (map_size_delete_Some i m Hsome) as Hsize.
  assert (size m <> 0)%nat as Hpos.
  { destruct Hsome as [x Hx]. intros Hz%map_size_empty_iff.
    by rewrite Hz, lookup_empty in Hx. }
  assert (size (delete_all ids (delete i m)) + length ids
          = size (delete i m))%nat as Hrest.
  { apply IH; [done|]. intros k Hk.
    rewrite lookup_delete_ne; [apply Hin; by right | by intros ->]. }
  lia.
Qed.

Lemma expired_ids_elem cutoff (m : gmap string LedgerEntry) k :
  k ∈ (List.filter (fun item => expired cutoff item.2) (map_to_list m)).*1
  <-> exists info, m !! k = Some info /\ expired cutoff info = true.
Proof.
  rewrite list_elem_of_fmap. split.
  - intros ([k' info] & -> & Hin). apply list_elem_of_In, filter_In in Hin.
    destruct Hin as [Hin He]. exists info. split; [|done].
    by apply elem_of_map_to_list, list_elem_of_In.
  - intros (info & Hm & He). exists (k, info). split; [done|].
    apply list_elem_of_In, filter_In. split; [|done].
    by apply list_elem_of_In, elem_of_map_to_list.
Qed.

Lemma expired_ids_NoDup cutoff (m : gmap string LedgerEntry) :
  NoDup (List.filter (fun item => expired cutoff item.2) (map_to_list m)).*1.
Proof.
  eapply sublist_NoDup; [apply (NoDup_fst_map_to_list m)|].
  apply fmap_sublist, filter_bool_sublist.
Qed.

(** What one call of [cleanup_old_entries] does.  Without retention it
    returns 0.  Otherwise it raises [OverflowError] when the cutoff is no
    date and [TypeError] when an entry of the ledger is not plain, in both
    cases before it removes anything; on a plain ledger it deletes the
    identifiers of the expired entries and saves when there is at least
    one. *)
Lemma cleanup_old_entries_run now f d w r m lu :
  let self := mkHistory f d w r (mkLedger m lu) in
  let ids :=
    (List.filter (fun item => expired (now - r * day_us) item.2)
       (map_to_list m)).*1 in
  let self1 := mkHistory f d w r (mkLedger (delete_all ids m) lu) in
  cleanup_old_entries now self
  = if r <=? 0 then (Ok 0, self)
    else if negb (cutoff_in_range now r) then (Raise OverflowError, self)
    else if negb (plain_ledger m) then (Raise TypeError, self)
    else if truthy_list ids
    then match _save now self1 with
         | (Ok _, self2) => (Ok (Z.of_nat (length ids)), self2)
         | (Raise e, self2) => (Raise e, self2)
         end
    else (Ok 0, self1).
Proof.
  intros self ids self1. subst self.
  unfold cleanup_old_entries. unfold bind at 1. unfold gets at 1.
  cbn beta iota delta [retention_days].
  destruct (r <=? 0); [done|].
  unfold now_local. rewrite cutoff_cases_M.
  destruct (cutoff_in_range now r); [|done]. cbn [negb].
  unfold bind, gets, lift, modify, ret.
  cbn beta iota delta [data papers].
  rewrite cleanup_scan_spec. fold (plain_ledger m).
  destruct (plain_ledger m); [|done]. cbn beta iota delta [app negb].
  fold ids. unfold set_data, set_papers.
  cbn beta iota delta [history_file disk writes retention_days
    data papers last_updated]. fold self1.
  destruct ids as [|i ids']; [done|]. cbn [truthy_list].
  by destruct (_save now self1) as [[[]|e] self2].
Qed.

(** The same on a plain ledger with retention in force and a cutoff that
    is a date. *)
Lemma cleanup_old_entries_unfold now f d w r m lu :
  0 < r -> cutoff_in_range now r = true -> plain_ledger m = true ->
  let ids :=
    (List.filter (fun item => expired (now - r * day_us) item.2)
       (map_to_list m)).*1 in
  let self1 := mkHistory f d w r (mkLedger (delete_all ids m) lu) in
  cleanup_old_entries now (mkHistory f d w r (mkLedger m lu))
  = if truthy_list ids
    then match _save now self1 with
         | (Ok _, self2) => (Ok (Z.of_nat (length ids)), self2)
         | (Raise e, self2) => (Raise e, self2)
         end
    else (Ok 0, self1).
Proof.
  intros Hr Hrange Hplain ids self1.
  rewrite cleanup_old_entries_run. cbn zeta. rewrite Hrange, Hplain.
  by destruct (Z.leb_spec r 0) as [|_]; [lia|].
Qed.

(** The outcomes of [cleanup_old_entries]: it returns, or raises
    [OverflowError] or [TypeError] leaving the manager as it was, or
    raises [OSError] in saving. *)
Lemma cleanup_old_entries_outcomes now self :
  (exists removed, (cleanup_old_entries now self).1 = Ok removed)
  \/ (cleanup_old_entries now self).1 = Raise OSError
  \/ ((cleanup_old_entries now self).1 = Raise OverflowError
      \/ (cleanup_old_entries now self).1 = Raise TypeError)
     /\ (cleanup_old_entries now self).2 = self.
Proof.
  destruct self as [f d w r [m lu]]. rewrite cleanup_old_entries_run.
  cbn zeta. destruct (r <=? 0); [left; by eexists|].
  destruct (cutoff_in_range now r); cbn [negb]; [|right; right; by split; [left|]].
  destruct (plain_ledger m); cbn [negb]; [|right; right; by split; [right|]].
  destruct (truthy_list _); [|left; by eexists].
  destruct d; cbn; [left; by eexists | right; by left..].
Qed.

End Retention.

(** On a ledger whose entries are all plain and with a cutoff that is a
    date, [cleanup_old_entries] with [retention_days > 0] removes exactly
    the entries whose [seen_at] parses and is strictly before
    [now - retention_days]: an entry [retention_days + 1] days old goes,
    an entry exactly [retention_days] days old stays, an entry whose
    [seen_at] is missing or does not parse stays.  When nothing is removed
    it returns 0 and writes nothing; when something is removed it saves
    the ledger once and returns the number of entries removed, unless the
    write fails, in which case [OSError] is raised after the removal in
    memory.  With [retention_days <= 0] it returns 0 and changes
    nothing. *)
Lemma cleanup_old_entries_exact `{DatetimeLib} (now : Z)
    (self : HistoryManager) :
  plain_ledger (papers (data self)) = true ->
  (0 < retention_days self ->
   cutoff_in_range now (retention_days self) = true) ->
  let before := papers (data self) in
  let cutoff := now - retention_days self * day_us in
  let result := (cleanup_old_entries now self).1 in
  let after := (cleanup_old_entries now self).2 in
  let removed := (size before - size (papers (data after)))%nat in
  if retention_days self <=? 0
  then result = Ok 0 /\ after = self
  else
    (forall id,
       papers (data after) !! id
       = match before !! id with
         | Some info => if expired cutoff info then None else Some info
         | None => None
         end)
    /\ (forall id info d,
          before !! id = Some info -> seen_time info = Some d ->
          (wall d = now - (retention_days self + 1) * day_us ->
           papers (data after) !! id = None)
          /\ (wall d = now - retention_days self * day_us ->
              papers (data after) !! id = Some info))
    /\ (forall id info,
          before !! id = Some info -> seen_time info = None ->
          papers (data after) !! id = Some info)
    /\ (removed = 0%nat -> result = Ok 0 /\ after = self)
    /\ ((0 < removed)%nat ->
        match disk self with
        | DiskOk =>
            result = Ok (Z.of_nat removed)
            /\ writes after = S (writes self)
            /\ history_file after = Json (data after)
        | _ =>
            result = Raise OSError
            /\ writes after = writes self
            /\ history_file after = history_file self
        end).
Proof.
  destruct self as [f d w r [m lu]].
  cbn beta iota delta [data papers retention_days disk writes history_file].
  intros Hfree Hrange before cutoff result after removed.
  destruct (Z.leb_spec r 0) as [Hr|Hr].
  - subst result after. unfold cleanup_old_entries, bind, gets, ret.
    cbn beta iota delta [retention_days].
    destruct (Z.leb_spec r 0) as [_|]; [done | lia].
  - pose proof (cleanup_old_entries_unfold now f d w r m lu Hr (Hrange Hr) Hfree)
      as Hrun.
    cbn zeta in Hrun. fold cutoff in Hrun.
    set (ids := (List.filter (fun item => expired cutoff item.2)
                   (map_to_list m)).*1) in *.
    assert (forall id, delete_all ids m !! id
              = match m !! id with
                | Some info => if expired cutoff info then None else Some info
                | None => None
                end) as Hlookup.
    { intros id. rewrite delete_all_lookup.
      destruct (m !! id) as [info|] eqn:Hm.
      - destruct (expired cutoff info) eqn:He.
        + rewrite bool_decide_eq_true_2; [done|].
          apply expired_ids_elem. by exists info.
        + rewrite bool_decide_eq_false_2; [done|].
          intros (info' & Hm' & He')%expired_ids_elem. congruence.
      - by destruct (bool_decide _). }
    assert (size (delete_all ids m) + length ids = size m)%nat as Hsize.
    { apply delete_all_size; [apply expired_ids_NoDup|].
      intros k (info & Hm & _)%expired_ids_elem. by eexists. }
    assert (papers (data after) = delete_all ids m
            /\ (ids = [] -> result = Ok 0 /\ after = mkHistory f d w r (mkLedger m lu))
            /\ (ids <> [] ->
                match d with
                | DiskOk =>
                    result = Ok (Z.of_nat (length ids))
                    /\ writes after = S w
                    /\ history_file after = Json (data after)
                | _ =>
                    result = Raise OSError
                    /\ writes after = w /\ history_file after = f
                end)) as (Hafter & Hnone & Hsome).
    { subst result after. rewrite Hrun. clear Hrun.
      destruct ids as [|i ids']; [done|]. cbn [truthy_list].
      split_and!; [| done |]; destruct d; try done. }
    assert (removed = length ids) as Hremoved.
    { subst removed before. rewrite Hafter. lia. }
    split_and!.
    + intros id. by rewrite Hafter.
    + intros id info t Hm Ht. rewrite Hafter, Hlookup. subst before.
      rewrite Hm. unfold expired. rewrite Ht. split; intros Hw.
      * destruct (Z.ltb_spec (wall t) cutoff) as [|Hge]; [done|].
        subst cutoff. unfold day_us, second_us in *. lia.
      * destruct (Z.ltb_spec (wall t) cutoff) as [Hlt|]; [|done].
        subst cutoff. lia.
    + intros id info Hm Ht. rewrite Hafter, Hlookup. subst before.
      rewrite Hm. unfold expired. by rewrite Ht.
    + intros Hz. apply Hnone. rewrite Hremoved in Hz.
      by apply length_zero_iff_nil.
    + intros Hpos. rewrite Hremoved in *. apply Hsome.
      intros ->. simpl in Hpos. lia.
Qed.

(** With retention in force and a cutoff that is a date, one entry that
    is not plain makes [cleanup_old_entries] raise [TypeError] before it
    removes anything. *)
Lemma cleanup_old_entries_type_error `{DatetimeLib} now self :
  0 < retention_days self ->
  cutoff_in_range now (retention_days self) = true ->
  plain_ledger (papers (data self)) = false ->
  cleanup_old_entries now self = (Raise TypeError, self).
Proof.
  destruct self as [f d w r [m lu]].
  cbn beta iota delta [data papers retention_days].
  intros Hr Hrange Hoff. rewrite cleanup_old_entries_run. cbn zeta.
  rewrite Hrange, Hoff. by destruct (Z.leb_spec r 0) as [|_]; [lia|].
Qed.

(** C3: [cleanup_old_entries] does not leave every entry with an
    unparsable [seen_at] untouched and return a count.  When the
    [seen_at] of one entry is [null], reading it raises [TypeError], which
    the handler for [KeyError] and [ValueError] does not catch: the call
    returns no number and removes nothing, so that the entry seen 91 days
    ago, past the retention of 90 days, stays in the ledger.  The same
    happens when a [seen_at] carries a UTC offset.  Without such an entry
    the call removes the entry seen 91 days ago and keeps the one seen
    exactly 90 days ago, the one without [seen_at] and the one whose
    [seen_at] is no date. *)
Theorem cleanup_old_entries_null_seen_at_raises :
  papers (data history_with_null) !! "2403.00005" = Some OtherValue
  /\ papers (data history_with_null) !! "2403.00001"
     = Some (mkEntry "Seen 91 days ago" (Some "2024-03-02T12:00:00"))
  /\ expired (H := cpython) (noon_1_june_2024 - 90 * day_us)
       (mkEntry "Seen 91 days ago" (Some "2024-03-02T12:00:00")) = true
  /\ cleanup_old_entries (H := cpython) noon_1_june_2024 history_with_null
     = (Raise TypeError, history_with_null)
  /\ cleanup_old_entries (H := cpython) noon_1_june_2024 history_with_offset
     = (Raise TypeError, history_with_offset)
  /\ (let after :=
        (cleanup_old_entries (H := cpython) noon_1_june_2024
           (sample_history DiskOk)).2 in
      (cleanup_old_entries (H := cpython) noon_1_june_2024
         (sample_history DiskOk)).1 = Ok 1
      /\ papers (data after) !! "2403.00001" = None
      /\ papers (data after) !! "2403.00002"
         = Some (mkEntry "Seen 90 days ago" (Some "2024-03-03T12:00:00"))
      /\ papers (data after) !! "2403.00003" = Some (mkEntry "No date" None)
      /\ papers (data after) !! "2403.00004"
         = Some (mkEntry "Garbled date" (Some "yesterday"))
      /\ writes after = 1%nat).
Proof. cbv zeta. split_and!; vm_compute; reflexivity. Qed.


Section Shrinking.
Context `{DatetimeLib}.

(** [cleanup_old_entries] only ever deletes entries. *)
Lemma cleanup_old_entries_shrinks now self :
  exists ids,
    papers (data (cleanup_old_entries now self).2)
    = delete_all ids (papers (data self)).
Proof.
  destruct self as [f d w r [m lu]]. rewrite cleanup_old_entries_run.
  cbn zeta. destruct (r <=? 0); [by exists []|].
  destruct (cutoff_in_range now r); cbn [negb]; [|by exists []].
  destruct (plain_ledger m); cbn [negb]; [|by exists []].
  eexists. destruct (truthy_list _); [|reflexivity].
  by destruct d.
Qed.

Lemma cleanup_old_entries_seen now self id :
  is_seen (cleanup_old_entries now self).2 id = true -> is_seen self id = true.
Proof.
  rewrite !is_seen_true. destruct (cleanup_old_entries_shrinks now self) as [ids ->].
  rewrite delete_all_lookup. destruct (bool_decide _); [by intros [? ?] | done].
Qed.

End Shrinking.

(** *** The ledgers the program writes are plain *)

Section Plain.
Context `{DatetimeLib}.

(** What the library guarantees of the text of a naive timestamp: read
    back, it is not an aware one. *)
Hypothesis naive_text_reads_naive :
  forall t d, fromisoformat (isoformat (now_local t)) = Some d ->
              utcoffset d = None.

Lemma plain_ledger_spec (m : gmap string LedgerEntry) :
  plain_ledger m = true <->
  forall id info, m !! id = Some info -> plain_entry info = true.
Proof.
  unfold plain_ledger. rewrite forallb_forall. split.
  - intros Hall id info Hm. apply (Hall (id, info)).
    by apply list_elem_of_In, elem_of_map_to_list.
  - intros Hall [id info] Hin. apply Hall with id.
    by apply elem_of_map_to_list, list_elem_of_In.
Qed.

Lemma plain_entry_of_now title t :
  plain_entry (mkEntry title (Some (isoformat (now_local t)))) = true.
Proof.
  unfold plain_entry, seen_time, is_naive.
  destruct (fromisoformat _) as [d|] eqn:Hd; [|done].
  by rewrite (naive_text_reads_naive t d Hd).
Qed.

Lemma plain_insert m id title t :
  plain_ledger m = true ->
  plain_ledger
    (<[id := mkEntry title (Some (isoformat (now_local t)))]> m) = true.
Proof.
  rewrite !plain_ledger_spec. intros Hm id' info.
  destruct (decide (id = id')) as [->|Hne].
  - rewrite lookup_insert_eq. intros [= <-]. apply plain_entry_of_now.
  - rewrite lookup_insert_ne by done. apply Hm.
Qed.

Lemma plain_empty : plain_ledger ∅ = true.
Proof. unfold plain_ledger. by rewrite map_to_list_empty. Qed.

Lemma mark_seen_plain now id title self :
  plain_ledger (papers (data self)) = true ->
  plain_ledger (papers (data (mark_seen now id title self).2)) = true.
Proof. rewrite mark_seen_papers. apply plain_insert. Qed.

Lemma mark_each_plain t requests m :
  plain_ledger m = true ->
  plain_ledger (mark_each (isoformat (now_local t)) requests m) = true.
Proof.
  revert m; induction requests as [|[id title] requests IH]; intros m Hm;
    [done|].
  cbn [mark_each]. apply IH.
  destruct (truthy_str (get_or_empty id)); [by apply plain_insert | done].
Qed.

Lemma mark_multiple_seen_plain now requests self :
  plain_ledger (papers (data self)) = true ->
  plain_ledger
    (papers (data (mark_multiple_seen now requests self).2)) = true.
Proof.
  intros Hm. unfold mark_multiple_seen, bind, modify. cbn beta iota.
  rewrite save_papers. by apply mark_each_plain.
Qed.


End Plain.

(** ** A failed summarization *)

(** [run] reports failure exactly when the prompt could be built and the
    process failed, and it then selects nothing. *)
Lemma run_failure_modes (self : ClaudeRunner) (ids : list string) :
  run self = Ok (false, ids) <->
  prompt_built self = Ok tt /\ process_failed (process self) = true /\ ids = [].
Proof.
  unfold run, run_subprocess. destruct (prompt_built self) as [[]|e]; cbn.
  - destruct (process self) as [rc| | |]; cbn.
    + destruct (rc =? 0); cbn; split.
      * intros [= <-]. 
      * intros (_ & ? & _). done.
      * by intros [= <-].
      * by intros (_ & _ & ->).
    + split; [by intros [= <-] | by intros (_ & _ & ->)].
    + split; [by intros [= <-] | by intros (_ & _ & ->)].
    + split; [by intros [= <-] | by intros (_ & _ & ->)].
  - split; [done | by intros [? _]].
Qed.


(** C7: when the summarization run fails (a non-zero exit status, a
    timeout, a missing CLI or any other failure, all of which [run] returns
    as [success = False]), [main] marks no paper as seen: the history it
    leaves is the history the summarization started with, in which nothing
    is seen that was not seen when the history was loaded; and whenever
    the run was reached, [main] exits with code 1. *)
Theorem failed_run_marks_nothing `{DatetimeLib} (env : Environment)
    (config : Config.t) (ids : list string) (history : HistoryManager) :
  load_config env = Ok config ->
  run (runner env) = Ok (false, ids) ->
  init (stored_history env) (history_disk env)
    (Config.history_retention_days config) = Ok history ->
  let started := (cleanup_old_entries (cleanup_time env) history).2 in
  process_failed (process (runner env)) = true
  /\ (main env).2 = Some started
  /\ (forall id, is_seen started id = true -> is_seen history id = true)
  /\ (forall removed candidates,
        (cleanup_old_entries (cleanup_time env) history).1 = Ok removed ->
        fetch_recent (arxiv_api env) config (fetch_time env)
          (get_arxiv_query config) = Ok candidates ->
        filter_unseen started candidates <> [] ->
        dry_run env = false ->
        candidates_saved (runner env) = Ok tt ->
        (main env).1 = Ok 1 /\ 1 <> 0).
Proof.
  intros Hconfig Hrun Hinit started. split_and!.
  - by apply run_failure_modes in Hrun as (_ & ? & _).
  - unfold main. rewrite Hconfig, Hinit.
    unfold pipeline, bind, lift, gets, ret, save_candidates.
    fold started.
    destruct (cleanup_old_entries (cleanup_time env) history)
      as [[removed|e] s1] eqn:Hclean; subst started; cbn [fst snd]; [|done].
    destruct (fetch_recent _ _ _ _) as [candidates|e]; [|done].
    destruct (truthy_list candidates); cbn [negb]; [|done].
    destruct (truthy_list (filter_unseen s1 candidates)); cbn [negb]; [|done].
    destruct (dry_run env); [done|].
    destruct (candidates_saved (runner env)) as [[]|e]; [|done].
    by rewrite Hrun.
  - intros id. apply cleanup_old_entries_seen.
  - intros removed candidates Hclean Hfetch Hunseen Hdry Hsaved.
    split; [|done].
    unfold main. rewrite Hconfig, Hinit.
    unfold pipeline, bind, lift, gets, ret, save_candidates.
    fold started in Hclean, Hunseen.
    destruct (cleanup_old_entries (cleanup_time env) history)
      as [r s1] eqn:Hc. cbn [fst snd] in *. subst r started.
    rewrite Hfetch.
    destruct candidates as [|c cs]; [done|]. cbn [truthy_list negb].
    destruct (filter_unseen s1 (c :: cs)) as [|u us]; [done|].
    cbn [truthy_list negb].
    destruct (dry_run env); [discriminate|].
    destruct (candidates_saved (runner env)) as [[]|e]; [|discriminate].
    by rewrite Hrun.
Qed.

Lemma failed_run_marks_nothing_witness :
  let env := sample_environment (Exited 2) in
  let history := sample_history DiskOk in
  let started :=
    (cleanup_old_entries (H := cpython) noon_1_june_2024 history).2 in
  (main (H := cpython) env).2 = Some started
  /\ (main (H := cpython) env).1 = Ok 1
  /\ is_seen started "2405.00002" = false.
Proof.
  destruct (failed_run_marks_nothing (H := cpython)
              (sample_environment (Exited 2)) (config_of ["cs.LG"] []) []
              (sample_history DiskOk) eq_refl eq_refl eq_refl)
    as (_ & Hsame & _ & Hcode).
  cbv zeta. split_and!.
  - exact Hsame.
  - eapply Hcode.
    + vm_compute. reflexivity.
    + vm_compute. reflexivity.
    + vm_compute. discriminate.
    + reflexivity.
    + reflexivity.
  - vm_compute. reflexivity.
Defined.

(** ** Further properties of the seen ledger *)

Section LedgerMore.
Context `{DatetimeLib}.

Lemma save_ok now f w r l :
  _save now (mkHistory f DiskOk w r l)
  = (Ok tt,
     let l' := mkLedger (papers l) (Some (isoformat (now_local now))) in
     mkHistory (Json l') DiskOk (S w) r l').
Proof. reflexivity. Qed.

Lemma load_json l : _load (Json l) = Ok l.
Proof. reflexivity. Qed.


End LedgerMore.

Lemma filter_bool_nil {A} (f : A -> bool) (l : list A) :
  (forall x, In x l -> f x = false) -> List.filter f l = [].
Proof.
  induction l as [|x l IH]; intros Hall; [done|]. cbn.
  rewrite (Hall x) by by left. apply IH. intros y Hy. apply Hall. by right.
Qed.

Section LedgerTheorems.
Context `{DatetimeLib}.















End LedgerTheorems.



(** X2: when the directory cannot be made or the file cannot be opened,
    [mark_seen] raises [OSError] and writes nothing, but the identifier is
    already marked in memory: the manager at hand sees it, a manager made
    from the file does not know of the call.  [last_updated] is set unless
    the failure is that of [mkdir], which comes first. *)
Theorem mark_seen_write_failure `{DatetimeLib} (now : Z) (id title : string)
    (self : HistoryManager) (d : disk_state) (retention : Z) :
  disk self <> DiskOk ->
  let after := (mark_seen now id title self).2 in
  (mark_seen now id title self).1 = Raise OSError
  /\ history_file after = history_file self
  /\ writes after = writes self
  /\ is_seen after id = true
  /\ init (history_file after) d retention
     = init (history_file self) d retention
  /\ last_updated (data after)
     = match disk self with
       | MkdirFails => last_updated (data self)
       | _ => Some (isoformat (now_local now))
       end.
Proof.
  intros Hd after.
  assert (is_seen after id = true) as Hseen.
  { apply is_seen_true. unfold after.
    rewrite mark_seen_papers, lookup_insert_eq. by eexists. }
  destruct self as [f [] w r l]; cbn [disk] in Hd; [done| |]; by split_and!.
Qed.

Lemma mark_seen_write_failure_witness :
  let after :=
    (mark_seen (H := cpython) noon_1_june_2024 "2405.00002" "A title"
       (sample_history OpenFails)).2 in
  (mark_seen (H := cpython) noon_1_june_2024 "2405.00002" "A title"
     (sample_history OpenFails)).1 = Raise OSError
  /\ is_seen after "2405.00002" = true
  /\ exists next,
       init (history_file after) DiskOk 90 = Ok next
       /\ is_seen next "2405.00002" = false.
Proof.
  destruct (mark_seen_write_failure (H := cpython) noon_1_june_2024
              "2405.00002" "A title" (sample_history OpenFails) DiskOk 90)
    as (Hraise & _ & _ & Hseen & Hfile & _); [discriminate|].
  cbv zeta. split_and!; [exact Hraise | exact Hseen |].
  rewrite Hfile. eexists. split; [reflexivity|]. vm_compute. reflexivity.
Defined.




(** X5: [get_stats] counts the identifiers that are seen: [mark_seen] of
    an identifier not yet seen raises [total_papers] by one, of one already
    seen leaves it as it is, and a manager that found no file counts
    none. *)
Theorem get_stats_counts_marks `{DatetimeLib} (now : Z) (id title : string)
    (self : HistoryManager) (d : disk_state) (retention : Z) :
  total_papers (get_stats (mark_seen now id title self).2)
  = total_papers (get_stats self) + (if is_seen self id then 0 else 1)
  /\ exists fresh,
       init Missing d retention = Ok fresh
       /\ total_papers (get_stats fresh) = 0
       /\ stats_last_updated (get_stats fresh) = None.
Proof.
  split; [|by eexists].
  unfold get_stats. cbn [total_papers]. rewrite mark_seen_papers.
  unfold is_seen.
  destruct (papers (data self) !! id) as [info|] eqn:Hid.
  - rewrite map_size_insert_Some by by eexists.
    rewrite bool_decide_eq_true_2 by by eexists. lia.
  - rewrite map_size_insert_None by done.
    rewrite bool_decide_eq_false_2 by by intros [? ?]. lia.
Qed.




(** ** Further properties of [main] *)

Section MainMore.
Context `{DatetimeLib}.



End MainMore.



(** X9: with [--dry-run], [main] neither consults the summarization
    runner nor marks anything: whatever the runner would do, the run ends
    the same way, with the history as [cleanup_old_entries] left it, and
    when it ends with an exit code the code is 0. *)
Theorem dry_run_leaves_history `{DatetimeLib} (env : Environment)
    (config : Config.t) (history : HistoryManager) (other : ClaudeRunner) :
  dry_run env = true ->
  pipeline (with_runner other env) config history = pipeline env config history
  /\ (pipeline env config history).2
     = (cleanup_old_entries (cleanup_time env) history).2
  /\ (forall code, (pipeline env config history).1 = Ok code -> code = 0).
Proof.
  intros Hdry.
  unfold pipeline, with_runner, bind, lift, gets, ret, save_candidates.
  cbn [cleanup_time arxiv_api fetch_time dry_run runner mark_time].
  rewrite Hdry.
  destruct (cleanup_old_entries (cleanup_time env) history) as [[removed|e] s1];
    cbn [fst snd]; [|by split_and!].
  destruct (fetch_recent _ _ _ _) as [candidates|e]; [|by split_and!].
  destruct (truthy_list candidates); cbn [negb];
    [|split_and!; [done|done|by intros ? [= <-]]].
  destruct (truthy_list (filter_unseen s1 candidates)); cbn [negb];
    split_and!; try done; by intros ? [= <-].
Qed.

Lemma dry_run_leaves_history_witness :
  let env :=
    mkEnv (Ok (config_of ["cs.LG"] [])) true (Json sample_ledger) DiskOk
      catalog_of_two (mkRunner (Ok tt) (Ok tt) (Exited 0) ["2405.00002"])
      noon_1_june_2024 noon_1_june_2024 noon_1_june_2024 in
  (main (H := cpython) env).1 = Ok 0
  /\ pipeline (H := cpython)
       (with_runner (mkRunner (Raise OSError) (Raise OSError) ProcessError [])
          env)
       (config_of ["cs.LG"] []) (sample_history DiskOk)
     = pipeline (H := cpython) env (config_of ["cs.LG"] [])
         (sample_history DiskOk).
Proof.
  cbv zeta. split; [vm_compute; reflexivity|].
  apply (dry_run_leaves_history (H := cpython)). reflexivity.
Defined.

(** X10: [main] ends with exit code 0 or 1 whenever it ends with an exit
    code, and with 1 only when the configuration could not be loaded
    ([FileNotFoundError] or [ValueError]) or the summarization run
    reported failure. *)
Theorem main_exit_codes `{DatetimeLib} (env : Environment) (code : Z) :
  (main env).1 = Ok code ->
  code = 0
  \/ code = 1
     /\ ((exists e, load_config env = Raise e
                    /\ existsb (is_instance e) [FileNotFoundError; ValueError]
                       = true)
         \/ exists ids, run (runner env) = Ok (false, ids)).
Proof.
  unfold main. destruct (load_config env) as [config|e] eqn:Hconfig.
  - destruct (init _ _ _) as [history|e]; [|done].
    unfold pipeline, bind, lift, gets, ret, save_candidates.
    destruct (cleanup_old_entries _ _) as [[removed|e] s1]; cbn [fst snd];
      [|done].
    destruct (fetch_recent _ _ _ _) as [candidates|e]; [|done].
    destruct (truthy_list candidates); cbn [negb]; [|intros [= <-]; by left].
    destruct (truthy_list (filter_unseen s1 candidates)); cbn [negb];
      [|intros [= <-]; by left].
    destruct (dry_run env); [intros [= <-]; by left|].
    destruct (candidates_saved (runner env)) as [[]|e]; [|done].
    destruct (run (runner env)) as [[[] ids]|e] eqn:Hrun; cbn [negb]; [| |done].
    + destruct (truthy_list ids).
      * destruct (mark_multiple_seen _ _ _) as [[[]|e] s2]; cbn [fst];
          [intros [= <-]; by left | done].
      * intros [= <-]. by left.
    + intros [= <-]. right. split; [done|]. right. by exists ids.
  - destruct (existsb (is_instance e) _) eqn:He; cbn [fst]; [|done].
    intros [= <-]. right. split; [done|]. left. by exists e.
Qed.

Lemma main_exit_codes_witness :
  1 = 0
  \/ 1 = 1
     /\ ((exists e, load_config (sample_environment ProcessTimeout) = Raise e
                    /\ existsb (is_instance e) [FileNotFoundError; ValueError]
                       = true)
         \/ exists ids,
              run (runner (sample_environment ProcessTimeout)) = Ok (false, ids)).
Proof.
  apply (main_exit_codes (H := cpython) (sample_environment ProcessTimeout) 1).
  vm_compute. reflexivity.
Defined.

(* ===================================================================== *)
(** * arxiv_fetcher.py: the feed loop and the text of a paper *)
(* ===================================================================== *)


(** ** Further properties of the fetcher *)

Lemma papers_of_entries_acc entries acc :
  papers_of_entries entries acc = acc ++ papers_of_entries entries [].
Proof.
  revert acc; induction entries as [|e es IH]; intros acc; cbn.
  - by rewrite app_nil_r.
  - destruct (from_entry e) as [p|x]; [|apply IH].
    rewrite (IH (acc ++ [p])), (IH [p]). by rewrite <- app_assoc.
Qed.

Lemma papers_of_entries_cons e es :
  papers_of_entries (e :: es) []
  = match Entry.id e with
    | Some i =>
        match from_entry e with
        | Ok p => p :: papers_of_entries es []
        | Raise _ => []
        end
    | None => papers_of_entries es []
    end.
Proof.
  cbn. unfold from_entry. destruct (Entry.id e) as [i|]; [|done].
  by rewrite papers_of_entries_acc.
Qed.

Lemma papers_of_entries_urls entries :
  map arxiv_url (papers_of_entries entries []) = omap Entry.id entries
  /\ map arxiv_id (papers_of_entries entries [])
     = map normalize_id (omap Entry.id entries).
Proof.
  induction entries as [|e es [IHu IHi]]; [done|].
  rewrite papers_of_entries_cons. cbn [omap list_omap].
  unfold from_entry. destruct (Entry.id e) as [i|]; [|done].
  cbn. by rewrite IHu, IHi.
Qed.

(** X11: [fetch] gives no papers when the request fails, and otherwise
    one paper for each entry of the feed that has an [id], in the order
    of the feed and with that [id] as its [arxiv_url]; an entry without
    [id] is left out without failing the others, so a feed whose entries
    all have one yields as many papers as it has entries. *)
Theorem fetch_skips_unreadable_entries (api : string -> Z -> http_response)
    (query : string) (max_results : Z) :
  match api query max_results with
  | RequestException => fetch api query max_results = []
  | Feed entries =>
      map arxiv_url (fetch api query max_results) = omap Entry.id entries
      /\ map arxiv_id (fetch api query max_results)
         = map normalize_id (omap Entry.id entries)
      /\ (length (fetch api query max_results) <= length entries)%nat
      /\ (forallb (fun entry => bool_decide (is_Some (Entry.id entry))) entries
          = true ->
          length (fetch api query max_results) = length entries)
  end.
Proof.
  unfold fetch. destruct (api query max_results) as [|entries]; [done|].
  destruct (papers_of_entries_urls entries) as [Hurl Hid].
  split_and!; [done | done | |].
  - rewrite <- (length_map arxiv_url), Hurl. clear.
    induction entries as [|e es IH]; cbn; [lia|].
    destruct (Entry.id e); cbn; lia.
  - intros Hall. rewrite <- (length_map arxiv_url), Hurl. clear Hurl Hid.
    induction entries as [|e es IH]; [done|]. cbn in Hall |- *.
    apply andb_prop in Hall as [He Hes]. apply bool_decide_eq_true in He.
    destruct He as [i ->]. cbn. f_equal. by apply IH.
Qed.


(** ** Further properties of the strings *)

Lemma join_cons sep x l :
  l <> [] -> join sep (x :: l) = x +:+ sep +:+ join sep l.
Proof. by destruct l. Qed.

(** Replacing a one-character needle replaces every occurrence of the
    character. *)
Lemma replace_char c new s :
  replace (String c EmptyString) new s = subst_char c new s.
Proof.
  unfold replace, split.
  assert (forall cur,
            join new (split_aux (String c EmptyString) 0 cur s)
            = cur +:+ subst_char c new s) as Hgen; [|apply (Hgen EmptyString)].
  induction s as [|a s IH]; intros cur.
  - cbn. by rewrite append_empty_r.
  - cbn [split_aux subst_char]. rewrite str_prefix_cons, str_prefix_empty.
    destruct (ascii_dec c a) as [->|Hne].
    + rewrite Ascii.eqb_refl. cbn [String.length Nat.sub].
      rewrite join_cons by apply split_aux_nonempty.
      rewrite IH. by cbn.
    + destruct (Ascii.eqb_spec a c) as [->|_]; [done|].
      rewrite IH. by rewrite append_assoc.
Qed.

Lemma subst_char_chars c new s a :
  In a (chars (subst_char c new s)) ->
  In a (chars new) \/ (In a (chars s) /\ a <> c).
Proof.
  induction s as [|b s IH]; cbn; [done|].
  rewrite chars_app. intros [Hin|Hin]%in_app_iff.
  - destruct (Ascii.eqb_spec b c) as [->|Hne]; [by left|].
    destruct Hin as [<-|[]]. right. split; [by left | done].
  - destruct (IH Hin) as [?|[? ?]]; [by left | right; split; [by right | done]].
Qed.

Lemma lstrip_chars s a : In a (chars (lstrip s)) -> In a (chars s).
Proof.
  induction s as [|b s IH]; cbn; [done|].
  destruct (is_space b); [right; by apply IH | done].
Qed.

Lemma lstrip_head s a :
  head (chars (lstrip s)) = Some a -> is_space a = false.
Proof.
  induction s as [|b s IH]; cbn; [done|].
  destruct (is_space b) eqn:Hb; [done|]. cbn. by intros [= <-].
Qed.

Lemma rstrip_chars s a : In a (chars (rstrip s)) -> In a (chars s).
Proof.
  revert a; induction s as [|b s IH]; intros a; cbn; [done|].
  destruct (rstrip s) as [|c t] eqn:Hr.
  - destruct (is_space b); cbn; [done|]. intros [<-|[]]. by left.
  - cbn. intros [<-|Hin]; [by left|]. right. by apply IH.
Qed.

Lemma rstrip_head s a :
  head (chars (rstrip s)) = Some a -> head (chars s) = Some a.
Proof.
  destruct s as [|b s]; cbn; [done|].
  destruct (rstrip s) as [|c t]; [destruct (is_space b)|]; cbn; try done.
Qed.

Lemma rstrip_last s a :
  last (chars (rstrip s)) = Some a -> is_space a = false.
Proof.
  induction s as [|b s IH]; cbn; [done|].
  destruct (rstrip s) as [|c t] eqn:Hr.
  - destruct (is_space b) eqn:Hb; cbn; [done|]. by intros [= <-].
  - cbn [chars String.list_ascii_of_string] in *. rewrite last_cons.
    destruct (last (c :: chars t)) as [x|] eqn:Hl;
      [|by apply last_None in Hl].
    intros [= <-]. by apply IH.
Qed.

(** What [strip] leaves has no white space at either end and no
    character that was not there. *)
Lemma strip_spec s :
  (forall a, In a (chars (strip s)) -> In a (chars s))
  /\ (forall a, head (chars (strip s)) = Some a -> is_space a = false)
  /\ (forall a, last (chars (strip s)) = Some a -> is_space a = false).
Proof.
  unfold strip. split_and!.
  - intros a Hin. by apply lstrip_chars, rstrip_chars.
  - intros a Hh. by apply (lstrip_head s), rstrip_head.
  - apply rstrip_last.
Qed.


(** ** Further properties of [Paper.from_entry] *)

(** X12: the [title] and the [abstract] of a paper made by [from_entry]
    hold no newline and neither begin nor end with white space. *)
Theorem from_entry_cleans_text (entry : Entry.t) (paper : Paper) :
  from_entry entry = Ok paper ->
  Forall (fun text =>
            ~ In (ascii_of_nat 10) (chars text)
            /\ (forall a, head (chars text) = Some a -> is_space a = false)
            /\ (forall a, last (chars text) = Some a -> is_space a = false))
    [title paper; abstract paper].
Proof.
  assert (forall s,
            let text := strip (replace newline " " s) in
            ~ In (ascii_of_nat 10) (chars text)
            /\ (forall a, head (chars text) = Some a -> is_space a = false)
            /\ (forall a, last (chars text) = Some a -> is_space a = false))
    as Hclean.
  { intros s text. destruct (strip_spec (replace newline " " s))
      as (Hsub & Hhead & Hlast).
    split_and!; [|done..]. intros Hin%Hsub.
    unfold newline, chr in Hin. rewrite replace_char in Hin.
    apply subst_char_chars in Hin as [[Heq|[]]|[_ Hne]]; [|done].
    by vm_compute in Heq. }
  unfold from_entry. destruct (Entry.id entry) as [i|]; [|done].
  intros [= <-]. cbn [title abstract]. repeat constructor; apply Hclean.
Qed.

Lemma from_entry_cleans_text_witness :
  Forall (fun text =>
            ~ In (ascii_of_nat 10) (chars text)
            /\ (forall a, head (chars text) = Some a -> is_space a = false)
            /\ (forall a, last (chars text) = Some a -> is_space a = false))
    ["Two lines of title"; ""].
Proof.
  apply (from_entry_cleans_text
           (Entry.mk (Some "http://arxiv.org/abs/2401.12345v1")
              (Some ("  Two lines" +:+ newline +:+ "of title "))
              None [] [] None None)
           (mkPaper "2401.12345" "Two lines of title" [] "" [] "" ""
              "http://arxiv.org/abs/2401.12345v1"
              "http://arxiv.org/pdf/2401.12345v1.pdf")).
  vm_compute. reflexivity.
Defined.


Lemma str_in_cons sub a s :
  str_in sub (String a s) = String.prefix sub (String a s) || str_in sub s.
Proof. reflexivity. Qed.

Lemma split_no_occurrence sep cur s :
  str_in sep s = false -> sep <> EmptyString ->
  split_aux sep 0 cur s = [cur +:+ s].
Proof.
  intros Hno Hsep. revert cur Hno; induction s as [|a s IH]; intros cur Hno.
  - cbn. by rewrite append_empty_r.
  - rewrite str_in_cons in Hno. apply orb_false_elim in Hno as [Hp Hs].
    cbn [split_aux]. rewrite Hp, IH by done. by rewrite append_assoc.
Qed.

(** A needle whose last character does not occur in [t] occurs in
    [s +:+ t] only inside [s]. *)
Lemma str_in_app_boundary sub s t c :
  last (chars sub) = Some c -> ~ In c (chars t) ->
  str_in sub (s +:+ t) = str_in sub s.
Proof.
  intros Hlast Hc. induction s as [|a s IH].
  - cbn [String.append]. 
    assert (str_in sub EmptyString = false) as ->.
    { destruct sub; [done|]. reflexivity. }
    induction t as [|b t IHt].
    + destruct sub; [done|]. reflexivity.
    + rewrite str_in_cons, IHt by (intros ?; apply Hc; by right).
      rewrite orb_false_r.
      destruct (String.prefix sub (String b t)) eqn:Hp; [|done].
      exfalso. apply Hc. apply (str_prefix_chars sub); [done|].
      apply list_elem_of_In, last_Some_elem_of. exact Hlast.
  - change (String a s +:+ t) with (String a (s +:+ t)).
    rewrite !str_in_cons, IH.
    change (String a (s +:+ t)) with (String a s +:+ t).
    by rewrite (str_prefix_app_boundary sub (String a s) t c).
Qed.

Lemma split_aux_step_skip sep cur a s :
  String.prefix sep (String a s) = false ->
  split_aux sep 0 cur (String a s)
  = split_aux sep 0 (cur +:+ String a EmptyString) s.
Proof. intros Hp. cbn [split_aux]. by rewrite Hp. Qed.

Lemma split_aux_step_match sep cur a s :
  String.prefix sep (String a s) = true ->
  split_aux sep 0 cur (String a s)
  = cur :: split_aux sep (String.length sep - 1) EmptyString s.
Proof. intros Hp. cbn [split_aux]. by rewrite Hp. Qed.

Lemma split_arxiv_url rest :
  str_in "/abs/" rest = false ->
  split "/abs/" ("http://arxiv.org/abs/" +:+ rest) = ["http://arxiv.org"; rest].
Proof.
  intros Hno. unfold split. cbn [String.append].
  do 16 (rewrite split_aux_step_skip by reflexivity).
  rewrite split_aux_step_match by (by destruct rest).
  cbn [String.append String.length Nat.sub split_aux].
  by rewrite split_no_occurrence.
Qed.

(** X13: on an identifier of the catalog's standard form,
    [http://arxiv.org/abs/] followed by a base identifier and a revision
    suffix, [Paper.from_entry] succeeds; the paper's identifier is the
    base, its [arxiv_url] is the identifier as given, and its [pdf_url]
    is the same address under [/pdf/] with [.pdf] appended, revision
    included. *)
Theorem from_entry_standard_url entry base r :
  Entry.id entry = Some ("http://arxiv.org/abs/" +:+ base +:+ r) ->
  is_revision_suffix r = true ->
  str_in "/abs/" base = false ->
  exists paper,
    from_entry entry = Ok paper
    /\ arxiv_id paper = base
    /\ arxiv_url paper = "http://arxiv.org/abs/" +:+ base +:+ r
    /\ pdf_url paper = "http://arxiv.org/pdf/" +:+ base +:+ r +:+ ".pdf".
Proof.
  intros Hid Hr Hbase. unfold from_entry. rewrite Hid.
  eexists. split; [reflexivity|]. cbn beta iota delta [arxiv_id arxiv_url pdf_url].
  destruct (revision_suffix_inv r Hr) as (ds & Hds & Hv & Hslash).
  split_and!.
  - rewrite <- append_assoc, normalize_id_revision by done.
    by rewrite split_arxiv_url.
  - done.
  - unfold replace. rewrite split_arxiv_url.
    + cbn [join]. by rewrite !append_assoc.
    + rewrite (str_in_app_boundary "/abs/" base r slash); done.
Qed.

Lemma from_entry_standard_url_witness :
  exists paper,
    from_entry (entry_with_id "http://arxiv.org/abs/2401.12345v2") = Ok paper
    /\ arxiv_id paper = "2401.12345"
    /\ arxiv_url paper = "http://arxiv.org/abs/2401.12345v2"
    /\ pdf_url paper = "http://arxiv.org/pdf/2401.12345v2.pdf".
Proof.
  apply (from_entry_standard_url
           (entry_with_id "http://arxiv.org/abs/2401.12345v2")
           "2401.12345" "v2"); reflexivity.
Defined.

(* ===================================================================== *)
(** * config_loader.py: validation and the query *)
(* ===================================================================== *)





(* ===================================================================== *)
(** * notifier.py: escaping *)
(* ===================================================================== *)

Lemma subst_char_app c new s t :
  subst_char c new (s +:+ t) = subst_char c new s +:+ subst_char c new t.
Proof.
  induction s as [|a s IH]; [done|].
  cbn [String.append subst_char]. by rewrite IH, append_assoc.
Qed.

Lemma escape_cons c text :
  _escape (String c text) = escape_char c +:+ _escape text.
Proof.
  unfold _escape, backslash, dquote, chr. rewrite !replace_char.
  cbn [subst_char]. rewrite subst_char_app. f_equal.
  unfold escape_char, backslash, dquote, chr.
  destruct (Ascii.eqb_spec c (ascii_of_nat 92)) as [->|Hb]; [reflexivity|].
  cbn [subst_char]. by destruct (Ascii.eqb c (ascii_of_nat 34)).
Qed.

Lemma read_literal_escape_char c s :
  read_literal (escape_char c +:+ s)
  = match read_literal s with
    | Some (text, after) => Some (String c text, after)
    | None => None
    end.
Proof.
  unfold escape_char, backslash, dquote, chr.
  destruct (Ascii.eqb_spec c (ascii_of_nat 92)) as [->|Hb]; [reflexivity|].
  destruct (Ascii.eqb_spec c (ascii_of_nat 34)) as [->|Hq]; [reflexivity|].
  cbn [String.append read_literal].
  destruct (Ascii.eqb_spec c (ascii_of_nat 34)); [done|].
  by destruct (Ascii.eqb_spec c (ascii_of_nat 92)).
Qed.

(** X15: a text escaped by [_escape] and closed by a double quote is read
    back as the text, and the reading stops at that closing quote: no
    double quote or backslash of the text ends the literal early or
    escapes its closing quote. *)
Theorem escape_reads_back (text rest : string) :
  read_literal (_escape text +:+ dquote +:+ rest) = Some (text, rest).
Proof.
  induction text as [|c text IH].
  - reflexivity.
  - rewrite escape_cons, append_assoc, read_literal_escape_char.
    by rewrite IH.
Qed.

(* ===================================================================== *)
(** * arxiv_fetcher.py: the recency window; main.py: runs with nothing new *)
(* ===================================================================== *)

Section Window.
Context `{DatetimeLib}.

Lemma filter_bool_weaken {A} (f g : A -> bool) (l : list A) :
  (forall x, f x = true -> g x = true) ->
  List.filter f l `sublist_of` List.filter g l.
Proof.
  intros Hfg. induction l as [|x l IH]; cbn; [constructor|].
  destruct (f x) eqn:Hf.
  - rewrite (Hfg x Hf). by constructor.
  - destruct (g x); [by constructor | done].
Qed.

Lemma recent_earlier_cutoff cutoff cutoff' paper :
  cutoff' <= cutoff -> recent cutoff paper = true -> recent cutoff' paper = true.
Proof.
  unfold recent. destruct (parsed_published paper) as [d|]; [|done].
  intros Hle Hr. apply Z.geb_le in Hr. apply Z.geb_le. lia.
Qed.

(** [fetch_recent] computes the first day of its window before it
    sends the request: when that day is no date it raises
    [OverflowError]; otherwise a failed request leaves it with no
    papers. *)
Lemma fetch_recent_request_failure api config now query :
  (forall full_query max_results,
     api full_query max_results = RequestException) ->
  fetch_recent api config now query
  = if cutoff_in_range now (Config.days_recent config) then Ok []
    else Raise OverflowError.
Proof.
  intros Hfail. unfold fetch_recent. cbn zeta. unfold now_utc.
  rewrite cutoff_cases.
  destruct (cutoff_in_range now (Config.days_recent config)) eqn:Hrange;
    [|done].
  unfold fetch. rewrite Hfail. rewrite filter_by_date_spec, Hrange.
  by destruct (_ <=? 0).
Qed.

(** When [fetch_recent] raises, [main] ends with the exception right
    after the cleanup. *)
Lemma pipeline_fetch_raises env config history removed e :
  (cleanup_old_entries (cleanup_time env) history).1 = Ok removed ->
  fetch_recent (arxiv_api env) config (fetch_time env) (get_arxiv_query config)
  = Raise e ->
  pipeline env config history
  = (Raise e, (cleanup_old_entries (cleanup_time env) history).2).
Proof.
  intros Hclean Hfetch. unfold pipeline, bind, lift, gets, ret.
  destruct (cleanup_old_entries (cleanup_time env) history) as [r s1].
  cbn [fst snd] in *. subst r. by rewrite Hfetch.
Qed.

(** With no candidate that is not seen, [main] stops after the cleanup. *)
Lemma pipeline_nothing_new env config history removed candidates :
  (cleanup_old_entries (cleanup_time env) history).1 = Ok removed ->
  fetch_recent (arxiv_api env) config (fetch_time env) (get_arxiv_query config)
  = Ok candidates ->
  filter_unseen (cleanup_old_entries (cleanup_time env) history).2 candidates
  = [] ->
  pipeline env config history
  = (Ok 0, (cleanup_old_entries (cleanup_time env) history).2).
Proof.
  intros Hclean Hfetch Hnone. unfold pipeline, bind, lift, gets, ret.
  destruct (cleanup_old_entries (cleanup_time env) history) as [r s1].
  cbn [fst snd] in *. subst r. rewrite Hfetch.
  destruct (truthy_list candidates); cbn [negb]; [|done].
  by rewrite Hnone.
Qed.

End Window.

(** X16: widening the window of [filter_by_date] loses no paper.  When
    the filter returns for a window of [days > 0] days, then for a longer
    window whose first day is still a date it returns too, and what it
    kept for the shorter window is a subsequence of what it keeps for the
    longer one; for a window that reaches back beyond the dates of the
    calendar it raises [OverflowError]. *)
Theorem filter_by_date_wider_window `{DatetimeLib} (now : Z)
    (papers : list Paper) (days days' : Z) (out : list Paper) :
  0 < days -> days <= days' ->
  filter_by_date now papers days = Ok out ->
  if cutoff_in_range now days'
  then exists out',
         filter_by_date now papers days' = Ok out' /\ out `sublist_of` out'
  else filter_by_date now papers days' = Raise OverflowError.
Proof.
  intros Hpos Hle. rewrite !filter_by_date_spec.
  destruct (Z.leb_spec days 0) as [|_]; [lia|].
  destruct (Z.leb_spec days' 0) as [|_]; [lia|].
  destruct (cutoff_in_range now days); [|done]. cbn [negb].
  destruct (cutoff_in_range now days'); [|done]. cbn [negb].
  destruct (existsb offset_free papers); [done|].
  intros [= <-]. eexists. split; [reflexivity|].
  apply filter_bool_weaken. intros paper. apply recent_earlier_cutoff.
  apply Z.sub_le_mono_l, Z.mul_le_mono_nonneg_r; [done | exact Hle].
Qed.

Lemma filter_by_date_wider_window_witness :
  (exists out',
     filter_by_date (H := cpython) noon_1_june_2024
       [paper_published "2405.00003" "2024-05-31T09:30:00Z";
        paper_published "2405.00002" "2024-05-20T09:30:00Z";
        paper_published "2405.00001" "2024-04-01T09:30:00Z"] 30
     = Ok out'
     /\ [paper_published "2405.00003" "2024-05-31T09:30:00Z"]
        `sublist_of` out')
  /\ filter_by_date (H := cpython) noon_1_june_2024
       [paper_published "2405.00003" "2024-05-31T09:30:00Z";
        paper_published "2405.00002" "2024-05-20T09:30:00Z";
        paper_published "2405.00001" "2024-04-01T09:30:00Z"] 1000000
     = Raise OverflowError.
Proof.
  split.
  - apply (filter_by_date_wider_window (H := cpython) noon_1_june_2024 _ 7 30);
      [lia | lia | vm_compute; reflexivity].
  - apply (filter_by_date_wider_window (H := cpython) noon_1_june_2024 _ 7
             1000000 [paper_published "2405.00003" "2024-05-31T09:30:00Z"]);
      [lia | lia | vm_compute; reflexivity].
Defined.

(** X17: when every request to the catalog fails, [main] ends right
    after the cleanup of the history, which it leaves as the cleanup left
    it: the summarization runner is not consulted and nothing is marked.
    The exit code is 0, unless the window of [days_recent] days reaches
    back beyond the dates of the calendar: [fetch_recent] then raises
    [OverflowError] before it sends a request, and [main] with it. *)
Theorem request_failure_exits_clean `{DatetimeLib} (env : Environment)
    (config : Config.t) (history : HistoryManager) (removed : Z) :
  load_config env = Ok config ->
  init (stored_history env) (history_disk env)
    (Config.history_retention_days config) = Ok history ->
  (cleanup_old_entries (cleanup_time env) history).1 = Ok removed ->
  (forall full_query max_results,
     arxiv_api env full_query max_results = RequestException) ->
  main env
  = (if cutoff_in_range (fetch_time env) (Config.days_recent config)
     then Ok 0 else Raise OverflowError,
     Some (cleanup_old_entries (cleanup_time env) history).2).
Proof.
  intros Hconfig Hinit Hclean Hfail. unfold main. rewrite Hconfig, Hinit.
  pose proof (fetch_recent_request_failure (arxiv_api env) config
                (fetch_time env) (get_arxiv_query config) Hfail) as Hfetch.
  destruct (cutoff_in_range (fetch_time env) (Config.days_recent config)).
  - rewrite (pipeline_nothing_new env config history removed []); done.
  - rewrite (pipeline_fetch_raises env config history removed OverflowError);
      done.
Qed.

Lemma request_failure_exits_clean_witness :
  (main (H := cpython)
     (mkEnv (Ok (config_of ["cs.LG"] [])) false (Json sample_ledger) DiskOk
        (fun _ _ => RequestException)
        (mkRunner (Ok tt) (Ok tt) (Exited 0) ["2405.00002"])
        noon_1_june_2024 noon_1_june_2024 noon_1_june_2024)).1
  = Ok 0
  /\ (main (H := cpython)
        (mkEnv (Ok (Config.mk (Some (Config.mkInterests (Some ["cs.LG"]) None))
                      4000000 50 90))
           false (Json sample_ledger) DiskOk
           (fun _ _ => RequestException)
           (mkRunner (Ok tt) (Ok tt) (Exited 0) ["2405.00002"])
           noon_1_june_2024 noon_1_june_2024 noon_1_june_2024)).1
     = Raise OverflowError.
Proof.
  split.
  - rewrite (request_failure_exits_clean (H := cpython)
               (mkEnv (Ok (config_of ["cs.LG"] [])) false (Json sample_ledger)
                  DiskOk (fun _ _ => RequestException)
                  (mkRunner (Ok tt) (Ok tt) (Exited 0) ["2405.00002"])
                  noon_1_june_2024 noon_1_june_2024 noon_1_june_2024)
               (config_of ["cs.LG"] []) (sample_history DiskOk) 1).
    + reflexivity.
    + reflexivity.
    + reflexivity.
    + vm_compute. reflexivity.
    + reflexivity.
  - rewrite (request_failure_exits_clean (H := cpython)
               (mkEnv (Ok (Config.mk
                             (Some (Config.mkInterests (Some ["cs.LG"]) None))
                             4000000 50 90))
                  false (Json sample_ledger) DiskOk
                  (fun _ _ => RequestException)
                  (mkRunner (Ok tt) (Ok tt) (Exited 0) ["2405.00002"])
                  noon_1_june_2024 noon_1_june_2024 noon_1_june_2024)
               (Config.mk (Some (Config.mkInterests (Some ["cs.LG"]) None))
                  4000000 50 90)
               (sample_history DiskOk) 1).
    + reflexivity.
    + reflexivity.
    + reflexivity.
    + vm_compute. reflexivity.
    + reflexivity.
Defined.

(** X18: when every candidate of the catalog is already seen, [main] ends
    with exit code 0 without consulting the summarization runner, and the
    history is the one the cleanup left. *)
Theorem all_seen_exits_clean `{DatetimeLib} (env : Environment)
    (config : Config.t) (history : HistoryManager) (removed : Z)
    (candidates : list Paper) :
  load_config env = Ok config ->
  init (stored_history env) (history_disk env)
    (Config.history_retention_days config) = Ok history ->
  let started := (cleanup_old_entries (cleanup_time env) history).2 in
  (cleanup_old_entries (cleanup_time env) history).1 = Ok removed ->
  fetch_recent (arxiv_api env) config (fetch_time env) (get_arxiv_query config)
  = Ok candidates ->
  (forall paper, In paper candidates ->
     is_seen started (arxiv_id paper) = true) ->
  main env = (Ok 0, Some started).
Proof.
  intros Hconfig Hinit started Hclean Hfetch Hseen. unfold main.
  rewrite Hconfig, Hinit.
  rewrite (pipeline_nothing_new env config history removed candidates);
    [done | done | done |].
  apply filter_bool_nil. intros paper Hin. fold started.
  by rewrite (Hseen paper Hin).
Qed.

Lemma all_seen_exits_clean_witness :
  (main (H := cpython)
     (mkEnv (Ok (config_of ["cs.LG"] [])) false (Json ledger_of_two) DiskOk
        catalog_of_two
        (mkRunner (Ok tt) (Ok tt) (Exited 0) ["2405.00002"])
        noon_1_june_2024 noon_1_june_2024 noon_1_june_2024)).1
  = Ok 0.
Proof.
  erewrite (all_seen_exits_clean (H := cpython)
              (mkEnv (Ok (config_of ["cs.LG"] [])) false (Json ledger_of_two)
                 DiskOk catalog_of_two
                 (mkRunner (Ok tt) (Ok tt) (Exited 0) ["2405.00002"])
                 noon_1_june_2024 noon_1_june_2024 noon_1_june_2024)
              (config_of ["cs.LG"] [])
              (mkHistory (Json ledger_of_two) DiskOk 0 90 ledger_of_two) 0).
  - reflexivity.
  - reflexivity.
  - reflexivity.
  - vm_compute. reflexivity.
  - vm_compute. reflexivity.
  - intros paper [<-|[<-|[]]]; vm_compute; reflexivity.
Defined.

(** ** Worked examples *)

Example python_strings :
  split "/abs/" "x/abs/abs/y" = ["x"; "abs/y"]
  /\ split "/abs/" "/abs/abs/" = [""; "abs/"]
  /\ rsplit1 "v" "solv-int/9901001" = Some ("sol", "-int/9901001")
  /\ rsplit1 "v" "abc" = None
  /\ replace "Z" "+00:00" "2024-01-15T12:34:56Z" = "2024-01-15T12:34:56+00:00"
  /\ strip (replace newline " " (" A title" +:+ newline +:+ "in two lines "))
     = "A title in two lines"
  /\ str_in " " "large language model" = true
  /\ str_in " " "llm" = false.
Proof. by vm_compute. Qed.

Example from_entry_reads_an_entry :
  from_entry (entry_with_id "http://arxiv.org/abs/2401.12345v1")
  = Ok (mkPaper "2401.12345" "Attention" ["A. Author"] "An abstract."
          ["cs.LG"] "2024-01-15T12:34:56Z" "2024-01-16T08:00:00Z"
          "http://arxiv.org/abs/2401.12345v1"
          "http://arxiv.org/pdf/2401.12345v1.pdf")
  /\ from_entry (Entry.mk None None None [] [] None None) = Raise AttributeError.
Proof. by vm_compute. Qed.

Example isoformat_round_trip :
  cpython_isoformat (naive 2024 6 1 12 0 0) = "2024-06-01T12:00:00"
  /\ cpython_fromisoformat "2024-06-01T12:00:00" = Some (naive 2024 6 1 12 0 0)
  /\ cpython_fromisoformat "2024-06-01T12:00:00+00:00"
     = Some (utc 2024 6 1 12 0 0)
  /\ cpython_fromisoformat "2024-02-30T12:00:00" = None.
Proof. by vm_compute. Qed.

Example mark_seen_writes_the_ledger :
  init Missing DiskOk 90 = Ok (mkHistory Missing DiskOk 0 90 empty_ledger) /\
  let after :=
    (mark_seen (H := cpython) noon_1_june_2024 "2405.00002" "A title"
       (mkHistory Missing DiskOk 0 90 empty_ledger)).2 in
  papers (data after) !! "2405.00002"
  = Some (mkEntry "A title" (Some "2024-06-01T12:00:00"))
  /\ history_file after = Json (data after)
  /\ last_updated (data after) = Some "2024-06-01T12:00:00".
Proof. by vm_compute. Qed.

(** The end-to-end scenario: of five fetched papers, two are older than
    the window of seven days and one of the other three is already seen;
    the two that remain come out in the order of the catalog. *)
Example selection_scenario :
  exists candidates,
    fetch_recent (H := cpython) catalog_of_five (config_of ["cs.CL"] [])
      noon_1_june_2024 (get_arxiv_query (config_of ["cs.CL"] []))
    = Ok candidates
    /\ map arxiv_id candidates = ["2405.00005"; "2405.00004"; "2405.00002"]
    /\ map arxiv_id (filter_unseen history_with_one_seen candidates)
       = ["2405.00005"; "2405.00002"].
Proof. eexists. split_and!; vm_compute; reflexivity. Qed.

Example full_query_of_fetch_recent :
  forall api,
    fetch_recent (H := cpython) api (config_of ["cs.CL"] []) noon_1_june_2024
      "(cat:cs.CL)"
    = filter_by_date (H := cpython) noon_1_june_2024
        (fetch api "((cat:cs.CL)) AND submittedDate:[202405250000 TO 202406012359]" 50)
        7.
Proof. reflexivity. Qed.
